(** * pdf_edit: form-field geometry inspection (example/assets/getfields.py)

    A shallow embedding of [getfields.py] and the properties of its
    rect resolution, widget collection and field aggregation.

    Python values are modelled as follows.
    - A float is an element of an abstract type [num] with the two
      operations the program uses: subtraction and [round(_, 3)]
      (class [PyFloat]).  Every statement holds for any such arithmetic;
      [binary64] instantiates it with IEEE 754 doubles, rounded as
      CPython rounds them, to run the model.
    - [None] is [None] of an option type; a missing dictionary key read
      with [.get] is [None] as well.
    - A [str] is a [string] (its UTF-8 bytes, whose lexicographic order is
      the code point order Python sorts by).
    - [dict]s with a fixed set of keys are records; [dict]s used as maps
      are [gmap]s; the key set of such maps is a [gset].
    - Exceptions are the [Raise] results of the [result] monad. *)

From Stdlib Require Import Ascii String ZArith.
From Corelib Require PrimFloat FloatOps SpecFloat Uint63Axioms.
From stdpp Require Import base option list strings gmap sorting.

Local Open Scope string_scope.
Local Open Scope list_scope.

(** ** Floats *)

Class PyFloat (num : Type) := {
  fsub : num → num → num;   (* x - y *)
  round3 : num → num         (* round(x, 3) *)
}.

(** ** Exceptions *)

Inductive exn :=
| FileNotFoundError
| AttributeError      (* .get on an object that is not a dictionary *)
| TypeError           (* len() or iteration of an object that allows neither *)
| KeyError            (* d[k] with k missing *)
| IndexError          (* l[i] with i out of range *)
| OverflowError       (* float() of an integer beyond the range of a float *)
| ReadError (msg : string).  (* raised by open, by the PDF reader or on its
                                values, with its message *)

Inductive result (A : Type) :=
| Ok (a : A)
| Raise (e : exn).
Arguments Ok {A} a.
Arguments Raise {A} e.

#[global] Instance result_ret : MRet result := λ A a, Ok a.
#[global] Instance result_bind : MBind result := λ A B f r,
  match r with Ok a => f a | Raise e => Raise e end.

Fixpoint foldM {S A : Type} (f : S → A → result S) (s : S) (l : list A) : result S :=
  match l with
  | [] => Ok s
  | a :: l' => s' ← f s a; foldM f s' l'
  end.

(** ** Python truthiness and [or] *)

Definition str_truthy (s : string) : bool := negb (String.eqb s "").

Definition opt_truthy {A} (truthy : A → bool) (v : option A) : bool :=
  match v with Some a => truthy a | None => false end.

(** [a or b]: [b] is evaluated only when [a] is falsy. *)
Definition py_or {A} (truthy : A → bool) (a : option A) (b : result (option A))
  : result (option A) :=
  if opt_truthy truthy a then Ok a else b.

(** ** Names *)

Definition _normalise_name (value : option string) : option string :=
  match value with
  | None => None
  | Some text =>
      match text with
      | String "/"%char rest => Some rest
      | _ => Some text
      end
  end.

Definition FIELD_TYPE_MAP : gmap string string :=
  list_to_map [("Tx", "text"); ("Sig", "signature"); ("Btn", "check");
               ("Ch", "choice"); ("Rd", "radio")].

(** [FIELD_TYPE_MAP.get(field_type, field_type)] *)
Definition map_field_type (field_type : option string) : option string :=
  match field_type with
  | None => None
  | Some code => Some (default code (FIELD_TYPE_MAP !! code))
  end.

(** ** Order used by [sorted] on field names *)

Definition str_le (a b : string) : Prop := String.leb a b.

#[global] Instance str_le_dec (a b : string) : Decision (str_le a b) :=
  Is_true_dec (String.leb a b).

Section Model.
Context {num : Type} `{PyFloat num}.

(** An entry of a rect: [float()] converts it to [v]; or [float()] raises
    TypeError or ValueError (a name, a null, a reference, a string that is
    not a number); or it is an integer beyond the range of a float, such
    as 10**400, and [float()] raises OverflowError. *)
Inductive Coord :=
| Numeric (v : num)
| NonNumeric
| TooLarge.

(** The value stored under [/Rect]: a sequence (an array; a string or a
    byte string, whose items are its characters or bytes), a dictionary
    with [size] keys, all of them names, or a truthy object that has no
    [len()] (a number, a null object, an indirect reference).  A falsy
    value that is no sequence and no dictionary behaves like a missing key
    throughout and is modelled as one. *)
Inductive RectObject :=
| Array (entries : list Coord)
| Mapping (size : nat)
| Unsized.

Record Point := { pt_x : option num; pt_y : option num }.

Record Size := { sz_width : option num; sz_height : option num }.

Record RectInfo := {
  top_left : Point;
  top_right : Point;
  bottom_left : Point;
  bottom_right : Point;
  ri_width : option num;
  ri_height : option num
}.

(** [except (TypeError, ValueError)] turns these two into [None]; an
    OverflowError is not caught. *)
Definition _as_float (value : Coord) : result (option num) :=
  match value with
  | Numeric v => Ok (Some v)
  | NonNumeric => Ok None
  | TooLarge => Raise OverflowError
  end.

Definition _format_number (value : option num) : option num :=
  match value with
  | None => None
  | Some v => Some (round3 v)
  end.

Definition rect_truthy (rect : RectObject) : bool :=
  match rect with
  | Array [] => false
  | Array (_ :: _) => true
  | Mapping size => negb (size =? 0)%nat
  | Unsized => true
  end.

(** [len(rect)] *)
Definition rect_len (rect : RectObject) : result nat :=
  match rect with
  | Array entries => Ok (length entries)
  | Mapping size => Ok size
  | Unsized => Raise TypeError
  end.

(** [rect[i]]; no key of a PDF dictionary is an integer. *)
Definition rect_item (rect : RectObject) (i : nat) : result Coord :=
  match rect with
  | Array entries =>
      match entries !! i with
      | Some value => Ok value
      | None => Raise IndexError
      end
  | Mapping _ => Raise KeyError
  | Unsized => Raise TypeError
  end.

Definition null_point : Point := {| pt_x := None; pt_y := None |}.

Definition null_rect_info : RectInfo :=
  {| top_left := null_point; top_right := null_point;
     bottom_left := null_point; bottom_right := null_point;
     ri_width := None; ri_height := None |}.

(** [right - left if right is not None and left is not None else None] *)
Definition sub_opt (a b : option num) : option num :=
  match a, b with
  | Some va, Some vb => Some (fsub va vb)
  | _, _ => None
  end.

(** [not rect or len(rect) != 4] returns the all-null dictionary for
    [None] and for a falsy rect without asking for its length. *)
Definition _resolve_rect (rect : option RectObject) : result RectInfo :=
  match rect with
  | None => Ok null_rect_info
  | Some rect =>
      if negb (rect_truthy rect) then Ok null_rect_info
      else
        len ← rect_len rect;
        if negb (len =? 4)%nat then Ok null_rect_info
        else
          left ← rect_item rect 0 ≫= _as_float;
          bottom ← rect_item rect 1 ≫= _as_float;
          right ← rect_item rect 2 ≫= _as_float;
          top ← rect_item rect 3 ≫= _as_float;
          let top_left := {| pt_x := left; pt_y := top |} in
          let top_right := {| pt_x := right; pt_y := top |} in
          let bottom_left := {| pt_x := left; pt_y := bottom |} in
          let bottom_right := {| pt_x := right; pt_y := bottom |} in
          let width := sub_opt right left in
          let height := sub_opt top bottom in
          Ok {| top_left := top_left; top_right := top_right;
                bottom_left := bottom_left; bottom_right := bottom_right;
                ri_width := width; ri_height := height |}
  end.

Definition _round_point (point : option Point) : option Point :=
  match point with
  | None => None
  | Some p => Some {| pt_x := _format_number (pt_x p); pt_y := _format_number (pt_y p) |}
  end.

Definition _round_size (size : option Size) : option Size :=
  match size with
  | None => None
  | Some s => Some {| sz_width := _format_number (sz_width s);
                      sz_height := _format_number (sz_height s) |}
  end.

Definition round_corner (value : Point) : Point :=
  {| pt_x := _format_number (pt_x value); pt_y := _format_number (pt_y value) |}.

Definition _round_box_dict (box : option RectInfo) : option RectInfo :=
  match box with
  | None => None
  | Some b =>
      Some {| top_left := round_corner (top_left b);
              top_right := round_corner (top_right b);
              bottom_left := round_corner (bottom_left b);
              bottom_right := round_corner (bottom_right b);
              ri_width := _format_number (ri_width b);
              ri_height := _format_number (ri_height b) |}
  end.

(** ** The PDF object model handed over by the reader *)

(** A field or annotation dictionary, read through [.get] at the three
    keys the program uses. [/T] and [/FT] hold strings when present. *)
Record PdfDict := {
  get_T : option string;
  get_Rect : option RectObject;
  get_FT : option string
}.

(** The object [/Parent] resolves to when that object is truthy. *)
Inductive ParentObject :=
| ParentDict (d : PdfDict)
| ParentOther.               (* truthy, but without [.get] *)

(** [get_Parent] is [None] when [/Parent] is missing or falsy, or when
    the object it resolves to is falsy (an empty dictionary). *)
Record Annotation := {
  annot : PdfDict;
  get_Parent : option ParentObject
}.

(** What [annotation_ref.get_object()] returns. *)
Inductive AnnotationObject :=
| AnnotDict (a : Annotation)
| AnnotOther.                (* not a dictionary: [.get_object] or [.get]
                                raises AttributeError *)

(** What [page.get('/Annots', [])] returns: an array of references (the
    empty one when the key is missing or its value is falsy; the keys of a
    dictionary and the characters of a string are walked through in the
    same way, as annotations that are no dictionaries), or a truthy object
    that cannot be iterated over, such as an indirect reference to the
    array, which [.get] does not resolve. *)
Inductive AnnotsObject :=
| AnnotsArray (refs : list AnnotationObject)
| AnnotsOther.

(** A page.  Reading [page.mediabox] and converting its four entries
    with [float()] raises (a page without a media box, an entry that is
    too large), with the message [mediabox_failure], or gives the four
    floats. *)
Record Page := {
  mediabox_failure : option string;
  mediabox_left : num;
  mediabox_bottom : num;
  mediabox_right : num;
  mediabox_top : num;
  get_Annots : AnnotsObject
}.

(** [for annotation_ref in annotations] *)
Definition iterate (annotations : AnnotsObject) : result (list AnnotationObject) :=
  match annotations with
  | AnnotsArray refs => Ok refs
  | AnnotsOther => Raise TypeError
  end.

(** The annotations of a page that the loop at line 124 can visit. *)
Definition Annots (page : Page) : list AnnotationObject :=
  match get_Annots page with
  | AnnotsArray refs => refs
  | AnnotsOther => []
  end.

Record Reader := {
  get_fields : option (list (string * PdfDict));  (* items in dict order *)
  pages : list Page
}.

(** The outcome of [open(pdf_path, 'rb')] and [PyPDF2.PdfReader(file)]. *)
Inductive Source :=
| NoSuchFile
| Unreadable (msg : string)
| Opened (reader : Reader).

(** ** Widgets and records *)

Record FlutterConfig := {
  pageIndex : nat;
  fc_x : option num;
  fc_y : option num;
  fc_width : option num;
  fc_height : option num;
  positionUnit : string;
  sizeUnit : string
}.

Record Widget := {
  w_page : option nat;
  w_boundingBox : option RectInfo;
  w_position : option Point;
  w_size : option Size;
  w_flutterConfig : option FlutterConfig
}.

Record FieldRecord := {
  name : string;
  field_type : option string;
  page : option nat;
  page_size : option Size;
  bounding_box : option RectInfo;
  position : option Point;
  size_ : option Size
}.

(** What is printed, line by line (the text formatting is left out). *)
Inductive Line :=
| PrintNoPages
| PrintNotFound (pdf_path : string)
| PrintUnexpected (error : exn)
| PrintFound
| PrintRule
| PrintFieldName (field_name : string)
| PrintPage (page : option nat)
| PrintCorners (rounded_box : option RectInfo)
| PrintPosition (x y : option num)
| PrintDimensions (width height : option num)
| PrintNotAvailable
| PrintFieldType (mapped_type : string).

(** ** Field Catalog Builder (lines 100-103) *)

Definition add_definition (acc : gmap string PdfDict) (item : string * PdfDict)
  : gmap string PdfDict :=
  match _normalise_name (Some item.1) with
  | Some key => if str_truthy key then <[key := item.2]> acc else acc
  | None => acc
  end.

Definition build_field_definitions (raw_fields : list (string * PdfDict))
  : gmap string PdfDict :=
  foldl add_definition ∅ raw_fields.

(** ** Widget Geometry Resolver (lines 109-170) *)

Record State := {
  page_metrics : gmap nat Size;
  widgets_by_field : gmap string (list Widget);
  field_types : gmap string (option string)
}.

(** [parent.get(key) if parent else None] *)
Definition parent_get {A} (key : PdfDict → option A) (parent : option ParentObject)
  : result (option A) :=
  match parent with
  | None => Ok None
  | Some (ParentDict d) => Ok (key d)
  | Some ParentOther => Raise AttributeError
  end.

(** [(parent or annotation).get(key)] *)
Definition parent_or_annotation_get {A} (key : PdfDict → option A)
    (parent : option ParentObject) (annotation : PdfDict) : result (option A) :=
  match parent with
  | None => Ok (key annotation)
  | Some (ParentDict d) => Ok (key d)
  | Some ParentOther => Raise AttributeError
  end.

(** [page_metrics[page_index]] *)
Definition subscript (page_metrics : gmap nat Size) (page_index : nat) : result Size :=
  match page_metrics !! page_index with
  | Some m => Ok m
  | None => Raise KeyError
  end.

(** [_format_number(page_height - top_left['y']) if (top_left and
    top_left['y'] is not None and page_height is not None) else None] *)
Definition flutter_y (top_left : Point) (page_height : option num) : option num :=
  match pt_y top_left, page_height with
  | Some ty, Some ph => _format_number (Some (fsub ph ty))
  | _, _ => None
  end.

(** The dictionary appended at lines 146-170. *)
Definition make_widget (page_index : nat) (page_height : option num)
    (rect : option RectObject) (rect_info : RectInfo) : Widget :=
  let bottom_left := bottom_left rect_info in
  let top_left := top_left rect_info in
  let width := ri_width rect_info in
  let height := ri_height rect_info in
  let has_rect := opt_truthy rect_truthy rect in
  {| w_page := Some page_index;
     w_boundingBox := if has_rect then Some rect_info else None;
     w_position := if has_rect then Some bottom_left else None;
     w_size := if has_rect
               then Some {| sz_width := width; sz_height := height |} else None;
     w_flutterConfig :=
       if has_rect && bool_decide (is_Some page_height)
       then Some {| pageIndex := page_index - 1;
                    fc_x := _format_number (pt_x bottom_left);
                    fc_y := flutter_y top_left page_height;
                    fc_width := _format_number width;
                    fc_height := _format_number height;
                    positionUnit := "points";
                    sizeUnit := "points" |}
       else None |}.

(** [widgets_by_field[field_name].append(widget)] on a defaultdict(list) *)
Definition append_widget (field_name : string) (widget : Widget)
    (widgets_by_field : gmap string (list Widget)) : gmap string (list Widget) :=
  <[field_name := (default [] (widgets_by_field !! field_name) ++ [widget])%list]>
    widgets_by_field.

(** [annotation.get('/T') or (parent.get('/T') if parent else None)] *)
Definition name_obj_of (a : Annotation) : result (option string) :=
  py_or str_truthy (get_T (annot a)) (parent_get get_T (get_Parent a)).

(** [annotation.get('/Rect') or (parent.get('/Rect') if parent else None)] *)
Definition rect_of_annotation (a : Annotation) : result (option RectObject) :=
  py_or rect_truthy (get_Rect (annot a)) (parent_get get_Rect (get_Parent a)).

(** [(parent or annotation).get('/FT') or
     field_definitions.get(field_name, {}).get('/FT')] *)
Definition type_obj_of (field_definitions : gmap string PdfDict)
    (field_name : string) (a : Annotation) : result (option string) :=
  own_type ← parent_or_annotation_get get_FT (get_Parent a) (annot a);
  py_or str_truthy own_type (Ok (field_definitions !! field_name ≫= get_FT)).

(** What one annotation contributes: its field name, the value stored in
    [field_types] and the widget appended to [widgets_by_field]. *)
Record Entry := {
  e_name : string;
  e_type : option string;
  e_widget : Widget
}.

(** Lines 125-144 and the dictionary of lines 147-169: everything that
    can raise is evaluated here, before the two maps are updated.
    [None] is the [continue] of line 132. *)
Definition resolve_annotation (field_definitions : gmap string PdfDict)
    (page_index : nat) (page_metrics : gmap nat Size)
    (annotation_ref : AnnotationObject) : result (option Entry) :=
  match annotation_ref with
  | AnnotOther => Raise AttributeError
  | AnnotDict a =>
      name_obj ← name_obj_of a;
      match _normalise_name name_obj with
      | None => Ok None
      | Some field_name =>
          rect ← rect_of_annotation a;
          rect_info ← _resolve_rect rect;
          metrics ← subscript page_metrics page_index;
          let page_height := sz_height metrics in
          type_obj ← type_obj_of field_definitions field_name a;
          Ok (Some {| e_name := field_name;
                      e_type := _normalise_name type_obj;
                      e_widget := make_widget page_index page_height rect rect_info |})
      end
  end.

(** The assignments of lines 142 and 146. *)
Definition apply_entry (st : State) (e : Entry) : State :=
  {| page_metrics := page_metrics st;
     widgets_by_field := append_widget (e_name e) (e_widget e) (widgets_by_field st);
     field_types := <[e_name e := e_type e]> (field_types st) |}.

(** One iteration of the loop at line 124. *)
Definition process_annotation (field_definitions : gmap string PdfDict)
    (page_index : nat) (st : State) (annotation_ref : AnnotationObject)
  : result State :=
  entry ← resolve_annotation field_definitions page_index (page_metrics st)
            annotation_ref;
  match entry with
  | None => Ok st
  | Some e => Ok (apply_entry st e)
  end.

(** Lines 115-118: [{'width': width, 'height': height}] of the media box. *)
Definition page_size_of (page : Page) : Size :=
  let width := fsub (mediabox_right page) (mediabox_left page) in
  let height := fsub (mediabox_top page) (mediabox_bottom page) in
  {| sz_width := Some width; sz_height := Some height |}.

(** Lines 115-117 as a whole: the size of the page, unless reading the
    media box raises. *)
Definition measure_page (page : Page) : result Size :=
  match mediabox_failure page with
  | Some msg => Raise (ReadError msg)
  | None => Ok (page_size_of page)
  end.

(** One iteration of the loop at line 114. *)
Definition process_page (field_definitions : gmap string PdfDict)
    (st : State) (indexed : nat * Page) : result State :=
  let page_index := indexed.1 in
  let page := indexed.2 in
  metrics ← measure_page page;
  let st' := {| page_metrics := <[page_index := metrics]> (page_metrics st);
                widgets_by_field := widgets_by_field st;
                field_types := field_types st |} in
  annotations ← iterate (get_Annots page);
  foldM (process_annotation field_definitions page_index) st' annotations.

(** [enumerate(pages, start=1)] *)
Definition enumerate1 {A} (l : list A) : list (nat * A) :=
  zip (seq 1 (length l)) l.

Definition initial_state : State :=
  {| page_metrics := ∅; widgets_by_field := ∅; field_types := ∅ |}.

Definition resolve_widgets (field_definitions : gmap string PdfDict)
    (pages : list Page) : result State :=
  foldM (process_page field_definitions) initial_state (enumerate1 pages).

(** ** The contributions of a document in page-then-annotation order

    The same traversal written without the mutable maps: the entries
    of the annotations of a page in annotation order, and those of the
    pages one after the other.  [resolve_widgets_entries] below shows
    that the loops apply exactly these entries, in this order. *)

Fixpoint entries_of_annots (field_definitions : gmap string PdfDict)
    (page_index : nat) (page_metrics : gmap nat Size)
    (annotations : list AnnotationObject) : result (list Entry) :=
  match annotations with
  | [] => Ok []
  | annotation_ref :: rest =>
      entry ← resolve_annotation field_definitions page_index page_metrics
                annotation_ref;
      entries ← entries_of_annots field_definitions page_index page_metrics rest;
      Ok (from_option (λ e, e :: entries) entries entry)
  end.

Fixpoint entries_of_pages (field_definitions : gmap string PdfDict)
    (indexed_pages : list (nat * Page)) : result (list Entry) :=
  match indexed_pages with
  | [] => Ok []
  | indexed :: rest =>
      metrics ← measure_page indexed.2;
      annotations ← iterate (get_Annots indexed.2);
      entries ← entries_of_annots field_definitions indexed.1
                  {[indexed.1 := metrics]} annotations;
      later ← entries_of_pages field_definitions rest;
      Ok (entries ++ later)%list
  end.

(** The widgets contributed under a field name, oldest first. *)
Definition widgets_named (field_name : string) (entries : list Entry) : list Widget :=
  e_widget <$> filter (λ e, e_name e = field_name) entries.

(** The types assigned under a field name, oldest first. *)
Definition types_named (field_name : string) (entries : list Entry)
  : list (option string) :=
  e_type <$> filter (λ e, e_name e = field_name) entries.

(** [page_metrics] after the pages of [indexed_pages] have been visited. *)
Definition record_metrics (page_metrics : gmap nat Size)
    (indexed_pages : list (nat * Page)) : gmap nat Size :=
  foldl (λ acc indexed, <[indexed.1 := page_size_of indexed.2]> acc)
    page_metrics indexed_pages.

Definition with_metrics (page_metrics : gmap nat Size) (st : State) : State :=
  {| page_metrics := page_metrics;
     widgets_by_field := widgets_by_field st;
     field_types := field_types st |}.

(** ** Field Aggregator and Reporter (lines 172-227) *)

Definition synthetic_widget : Widget :=
  {| w_page := None; w_boundingBox := None; w_position := None;
     w_size := None; w_flutterConfig := None |}.

(** [widgets[0] if widgets else {...}] *)
Definition primary_widget (widgets : list Widget) : Widget :=
  match widgets with
  | first :: _ => first
  | [] => synthetic_widget
  end.

(** [page_metrics.get(primary['page'])] *)
Definition metrics_of (page_metrics : gmap nat Size) (page : option nat) : option Size :=
  page ≫= λ page_index, page_metrics !! page_index.

(** [field_types.get(field_name)] *)
Definition field_type_of (field_types : gmap string (option string))
    (field_name : string) : option string :=
  field_types !! field_name ≫= id.

(** The dictionary appended to [results] at lines 215-225. *)
Definition make_record (st : State) (field_name : string) : FieldRecord :=
  let widgets := default [] (widgets_by_field st !! field_name) in
  let field_type := field_type_of (field_types st) field_name in
  let primary := primary_widget widgets in
  let mapped_type := map_field_type field_type in
  {| name := field_name;
     field_type := mapped_type;
     page := w_page primary;
     page_size := _round_size (metrics_of (page_metrics st) (w_page primary));
     bounding_box := _round_box_dict (w_boundingBox primary);
     position := _round_point (w_position primary);
     size_ := _round_size (w_size primary) |}.

(** Lines 196-198; computed for a field with a bounding box, never printed.
    The heights stored in [page_metrics] are floats, so the subtraction
    cannot raise. *)
Definition template_y (st : State) (primary : Widget) (top_left : Point) : option num :=
  match pt_y top_left, metrics_of (page_metrics st) (w_page primary) with
  | Some ty, Some metrics => (λ h, fsub h ty) <$> sz_height metrics
  | _, _ => None
  end.

(** The lines printed for one field (lines 189-213). *)
Definition report_field (st : State) (field_name : string) : list Line :=
  let widgets := default [] (widgets_by_field st !! field_name) in
  let field_type := field_type_of (field_types st) field_name in
  let primary := primary_widget widgets in
  let mapped_type := map_field_type field_type in
  ([PrintFieldName field_name; PrintPage (w_page primary)] ++
   match w_boundingBox primary with
   | Some box =>
       let width := w_size primary ≫= sz_width in
       let height := w_size primary ≫= sz_height in
       let rounded_position := round_corner (bottom_left box) in
       [PrintCorners (_round_box_dict (Some box));
        PrintPosition (pt_x rounded_position) (pt_y rounded_position);
        PrintDimensions (_format_number width) (_format_number height)]
   | None => [PrintNotAvailable]
   end ++
   match mapped_type with
   | Some shown => if opt_truthy str_truthy field_type then [PrintFieldType shown] else []
   | None => []
   end ++
   [PrintRule])%list.

Definition sorted_names (field_definitions : gmap string PdfDict) (st : State)
  : list string :=
  let all_field_names : gset string :=
    dom field_definitions ∪ dom (widgets_by_field st) in
  merge_sort str_le (elements all_field_names).

Definition aggregate (field_definitions : gmap string PdfDict) (st : State)
  : list Line * list FieldRecord :=
  let names := sorted_names field_definitions st in
  (([PrintFound; PrintRule] ++ concat (map (report_field st) names))%list,
   map (make_record st) names).

(** ** The whole operation *)

(** Lines 100-103: [raw_fields = reader.get_fields() or {}] and the
    catalog built from it. *)
Definition catalog_of (reader : Reader) : gmap string PdfDict :=
  let raw_fields := default [] (get_fields reader) in
  build_field_definitions raw_fields.

(** The body of the [with] block (lines 98-227). *)
Definition inspect (reader : Reader) : result (list Line * list FieldRecord) :=
  let field_definitions := catalog_of reader in
  match pages reader with
  | [] => Ok ([PrintNoPages], [])
  | _ :: _ =>
      st ← resolve_widgets field_definitions (pages reader);
      Ok (aggregate field_definitions st)
  end.

(** The [try] block (lines 97-227). *)
Definition open_and_inspect (src : Source) : result (list Line * list FieldRecord) :=
  match src with
  | NoSuchFile => Raise FileNotFoundError
  | Unreadable msg => Raise (ReadError msg)
  | Opened reader => inspect reader
  end.

(** [get_form_field_positions(pdf_path)], run on a file system where
    opening [pdf_path] gives [src]: the printed lines and the returned list. *)
Definition get_form_field_positions (pdf_path : string) (src : Source)
  : list Line * list FieldRecord :=
  match open_and_inspect src with
  | Ok out => out
  | Raise FileNotFoundError => ([PrintNotFound pdf_path], [])
  | Raise error => ([PrintUnexpected error], [])
  end.

End Model.

Arguments Coord : clear implicits.
Arguments RectObject : clear implicits.
Arguments Point : clear implicits.
Arguments Size : clear implicits.
Arguments RectInfo : clear implicits.
Arguments PdfDict : clear implicits.
Arguments ParentObject : clear implicits.
Arguments Annotation : clear implicits.
Arguments AnnotationObject : clear implicits.
Arguments AnnotsObject : clear implicits.
Arguments Page : clear implicits.
Arguments Reader : clear implicits.
Arguments Source : clear implicits.
Arguments FlutterConfig : clear implicits.
Arguments Widget : clear implicits.
Arguments FieldRecord : clear implicits.
Arguments Line : clear implicits.
Arguments State : clear implicits.
Arguments Entry : clear implicits.

(** ** Binary64 arithmetic, to run the model

    Python's float is the IEEE 754 double, here Rocq's primitive float.
    [round(x, 3)] is computed as CPython does: nan, the infinities and the
    zeros are returned as they are; otherwise the exact value of [x] times
    1000 is rounded to an integer [n], ties to even, and the result is the
    double nearest to [n / 1000], with the sign of [x]. *)

Definition float : Set := PrimFloat.float.

(** The integer nearest to [a / b], ties to even; [b] is positive. *)
Definition round_half_even (a b : Z) : Z :=
  let quotient := (a / b)%Z in
  let rest := (a mod b)%Z in
  match (2 * rest ?= b)%Z with
  | Lt => quotient
  | Gt => (quotient + 1)%Z
  | Eq => if Z.even quotient then quotient else (quotient + 1)%Z
  end.

(** The exponent [e] with [2^e <= p / q < 2^(e+1)], for positive [p], [q]. *)
Definition floor_log2_ratio (p q : Z) : Z :=
  let e := (Z.log2 p - Z.log2 q)%Z in
  if (0 <=? e)%Z
  then (if (p <? q * 2 ^ e)%Z then e - 1 else e)%Z
  else (if (p * 2 ^ (- e) <? q)%Z then e - 1 else e)%Z.

(** The double nearest to [p / q], ties to even, for positive [p] and [q]
    whose ratio is in the range of the normal doubles: the ratio is scaled
    to a mantissa of 53 bits, which is rounded. *)
Definition nearest_double (p q : Z) : float :=
  let shift := (52 - floor_log2_ratio p q)%Z in
  let mantissa := if (0 <=? shift)%Z
                  then round_half_even (p * 2 ^ shift) q
                  else round_half_even p (q * 2 ^ (- shift)) in
  FloatOps.Z.ldexp (PrimFloat.of_uint63 (Uint63Axioms.of_Z mantissa)) (- shift).

(** [round(x, 3)] *)
Definition float_round3 (x : float) : float :=
  match FloatOps.Prim2SF x with
  | SpecFloat.S754_finite negative mantissa exponent =>
      let thousandths :=
        if (0 <=? exponent)%Z then (1000 * Z.pos mantissa * 2 ^ exponent)%Z
        else round_half_even (1000 * Z.pos mantissa) (2 ^ (- exponent)) in
      let magnitude := if (thousandths =? 0)%Z then PrimFloat.zero
                       else nearest_double thousandths 1000 in
      if negative then PrimFloat.opp magnitude else magnitude
  | _ => x
  end.

#[global] Instance binary64 : PyFloat float :=
  {| fsub := PrimFloat.sub; round3 := float_round3 |}.

(** The double of a whole number of points. *)
Definition pts (z : Z) : float :=
  if (z <? 0)%Z then PrimFloat.opp (PrimFloat.of_uint63 (Uint63Axioms.of_Z (- z)))
  else PrimFloat.of_uint63 (Uint63Axioms.of_Z z).

(** The double nearest to [a / b]. *)
Definition ratio (a b : Z) : float := PrimFloat.div (pts a) (pts b).

(** A page with media box [0 0 612 792]. *)
Definition letter_page (annots : list (AnnotationObject float)) : Page float :=
  {| mediabox_failure := None;
     mediabox_left := pts 0; mediabox_bottom := pts 0;
     mediabox_right := pts 612; mediabox_top := pts 792;
     get_Annots := AnnotsArray annots |}.

Definition rect_of (l b r t : Z) : RectObject float :=
  Array [Numeric (pts l); Numeric (pts b); Numeric (pts r); Numeric (pts t)].

Definition plain_widget (T : option string) (Rect : option (RectObject float))
    (FT : option string) : AnnotationObject float :=
  AnnotDict {| annot := {| get_T := T; get_Rect := Rect; get_FT := FT |};
               get_Parent := None |}.

(** One text field "Name" at [100 700 300 720] on a single page. *)
Definition name_field_pdf : Reader float :=
  {| get_fields := Some [("Name", {| get_T := Some "Name"; get_Rect := None;
                                     get_FT := Some "/Tx" |})];
     pages := [letter_page [plain_widget (Some "Name")
                              (Some (rect_of 100 700 300 720)) (Some "/Tx")]] |}.

(** The state the widget resolver ends in ([initial_state] if it raises). *)
Definition final_state (reader : Reader float) : State float :=
  match resolve_widgets (catalog_of reader) (pages reader) with
  | Ok st => st
  | Raise _ => initial_state
  end.

Definition text_field : PdfDict float :=
  {| get_T := Some "A"; get_Rect := None; get_FT := Some "/Tx" |}.

(** A catalog with a text field "A" and no pages. *)
Definition no_pages_pdf : Reader float :=
  {| get_fields := Some [("A", text_field)]; pages := [] |}.

(** A widget of "A" followed by an annotation that is not a dictionary. *)
Definition broken_pdf : Reader float :=
  {| get_fields := Some [("A", text_field)];
     pages := [letter_page [plain_widget (Some "A") (Some (rect_of 10 20 110 40))
                              (Some "/Tx");
                            AnnotOther]] |}.

(** A radio group "Choice": three widgets that take name and type from
    their parent, the first two on page 1 and the third on page 2. *)
Definition radio_parent : option (ParentObject float) :=
  Some (ParentDict {| get_T := Some "Choice"; get_Rect := None;
                      get_FT := Some "/Btn" |}).

Definition radio_option (l b r t : Z) : AnnotationObject float :=
  AnnotDict {| annot := {| get_T := None; get_Rect := Some (rect_of l b r t);
                           get_FT := None |};
               get_Parent := radio_parent |}.

Definition radio_pdf : Reader float :=
  {| get_fields := Some [("Choice", {| get_T := Some "Choice"; get_Rect := None;
                                       get_FT := Some "/Btn" |})];
     pages := [letter_page [radio_option 50 600 62 612; radio_option 50 580 62 592];
               letter_page [radio_option 50 700 62 712]] |}.

(** One widget of "A" that carries its type; no catalog. *)
Definition typed_widget : Annotation float :=
  {| annot := {| get_T := Some "A"; get_Rect := Some (rect_of 10 20 110 40);
                 get_FT := Some "/Tx" |};
     get_Parent := None |}.

(** A second widget of "A" without a type and without a parent. *)
Definition untyped_widget : Annotation float :=
  {| annot := {| get_T := Some "A"; get_Rect := Some (rect_of 10 50 110 70);
                 get_FT := None |};
     get_Parent := None |}.

Definition typed_once_pdf : Reader float :=
  {| get_fields := None; pages := [letter_page [AnnotDict typed_widget]] |}.

Definition typed_then_untyped_pdf : Reader float :=
  {| get_fields := None;
     pages := [letter_page [AnnotDict typed_widget; AnnotDict untyped_widget]] |}.

(** An annotation whose [/T] is the single character "/". *)
Definition slash_named : Annotation float :=
  {| annot := {| get_T := Some "/"; get_Rect := Some (rect_of 10 20 110 40);
                 get_FT := Some "/Tx" |};
     get_Parent := None |}.

Definition slash_name_pdf : Reader float :=
  {| get_fields := None; pages := [letter_page [AnnotDict slash_named]] |}.

(** An annotation without [/T] whose parent has the empty string as [/T]. *)
Definition unnamed_child : Annotation float :=
  {| annot := {| get_T := None; get_Rect := Some (rect_of 10 20 110 40);
                 get_FT := None |};
     get_Parent := Some (ParentDict {| get_T := Some ""; get_Rect := None;
                                       get_FT := Some "/Tx" |}) |}.

Definition unnamed_child_pdf : Reader float :=
  {| get_fields := None; pages := [letter_page [AnnotDict unnamed_child]] |}.

(** A text field "A" in the catalog, and one page without annotations. *)
Definition catalog_only_pdf : Reader float :=
  {| get_fields := Some [("/A", text_field)]; pages := [letter_page []] |}.

(** A widget of "A" whose rect has three entries. *)
Definition short_rect_widget : Annotation float :=
  {| annot := {| get_T := Some "A";
                 get_Rect := Some (Array [Numeric (pts 1); Numeric (pts 2);
                                          Numeric (pts 3)]);
                 get_FT := Some "/Tx" |};
     get_Parent := None |}.

(** The state in which the first page, a letter page, is being visited. *)
Definition on_first_page : State float :=
  with_metrics {[1 := page_size_of (letter_page [])]} initial_state.

(** * The rest of the program *)

Section Rest.
Context {num : Type} `{PyFloat num}.

(** [_round_box] (lines 67-70), which nothing calls: a list of numbers or
    [None]s, each passed through [_format_number]. *)
Definition _round_box (box : option (list (option num))) : option (list (option num)) :=
  match box with
  | None => None
  | Some [] => None
  | Some (value :: values) => Some (_format_number <$> value :: values)
  end.

(** A number as [_format_number] returns it: [None] or a rounded float. *)
Definition is_rounded (value : option num) : Prop :=
  ∃ raw, value = _format_number raw.

Definition point_rounded (point : Point num) : Prop :=
  is_rounded (pt_x point) ∧ is_rounded (pt_y point).

Definition size_rounded (size : Size num) : Prop :=
  is_rounded (sz_width size) ∧ is_rounded (sz_height size).

Definition box_rounded (box : RectInfo num) : Prop :=
  point_rounded (top_left box) ∧ point_rounded (top_right box) ∧
  point_rounded (bottom_left box) ∧ point_rounded (bottom_right box) ∧
  is_rounded (ri_width box) ∧ is_rounded (ri_height box).

(** The corners of a RectInfo are those of one rectangle, and width and
    height are the differences of its sides. *)
Definition rect_info_consistent (info : RectInfo num) : Prop :=
  pt_x (bottom_left info) = pt_x (top_left info) ∧
  pt_x (bottom_right info) = pt_x (top_right info) ∧
  pt_y (top_right info) = pt_y (top_left info) ∧
  pt_y (bottom_right info) = pt_y (bottom_left info) ∧
  ri_width info = sub_opt (pt_x (top_right info)) (pt_x (top_left info)) ∧
  ri_height info = sub_opt (pt_y (top_left info)) (pt_y (bottom_left info)).

(** The geometry of a widget hangs together: position and size are read
    off the bounding box, and without a bounding box there is none of
    position, size and flutterConfig. *)
Definition widget_consistent (w : Widget num) : Prop :=
  match w_boundingBox w with
  | Some info =>
      rect_info_consistent info ∧
      w_position w = Some (bottom_left info) ∧
      w_size w = Some {| sz_width := ri_width info; sz_height := ri_height info |}
  | None => w_position w = None ∧ w_size w = None ∧ w_flutterConfig w = None
  end.

(** Documents on which no line of the loop can raise: every page has a
    media box of four numbers that [float()] converts, and its [/Annots]
    is an array; every annotation and every parent is a dictionary, and
    every [/Rect] is a sequence without an integer that is too large for
    a float. *)
Definition coord_converts (value : Coord num) : bool :=
  match value with
  | TooLarge => false
  | _ => true
  end.

Definition rect_well_formed (rect : option (RectObject num)) : bool :=
  match rect with
  | None => true
  | Some (Array entries) => forallb coord_converts entries
  | Some (Mapping _) => false
  | Some Unsized => false
  end.

Definition annotation_well_formed (annotation_ref : AnnotationObject num) : bool :=
  match annotation_ref with
  | AnnotOther => false
  | AnnotDict a =>
      rect_well_formed (get_Rect (annot a)) &&
      match get_Parent a with
      | None => true
      | Some (ParentDict d) => rect_well_formed (get_Rect d)
      | Some ParentOther => false
      end
  end.

Definition page_well_formed (page : Page num) : bool :=
  bool_decide (mediabox_failure page = None) &&
  match get_Annots page with
  | AnnotsArray refs => forallb annotation_well_formed refs
  | AnnotsOther => false
  end.

Definition pages_well_formed (pages : list (Page num)) : bool :=
  forallb page_well_formed pages.

(** The errors the loop over the pages can end in. *)
Definition loop_error (error : exn) : Prop :=
  error = AttributeError ∨ error = TypeError ∨ error = KeyError ∨
  error = OverflowError ∨ ∃ msg, error = ReadError msg.

(** The field names of the lines ['Field Name: ...'], in printing order. *)
Definition printed_names (lines : list (Line num)) : list string :=
  omap (λ line, match line with
                | PrintFieldName field_name => Some field_name
                | _ => None
                end) lines.

(** The raw names of the catalog that normalise to a field name. *)
Definition raw_items_of (field_name : string) (raw_fields : list (string * PdfDict num))
  : list (string * PdfDict num) :=
  filter (λ item, _normalise_name (Some item.1) = Some field_name) raw_fields.

(** Widgets in page order: both have a page, and the first is not on a
    later page than the second. *)
Definition page_le (w1 w2 : Widget num) : Prop :=
  ∃ i j : nat, w_page w1 = Some i ∧ w_page w2 = Some j ∧ (i ≤ j)%nat.

(** The annotations that line 132 skips, and a page without them. *)
Definition is_skipped (annotation_ref : AnnotationObject num) : bool :=
  match annotation_ref with
  | AnnotDict a => match name_obj_of a with Ok None => true | _ => false end
  | AnnotOther => false
  end.

Definition without_skipped (page : Page num) : Page num :=
  {| mediabox_failure := mediabox_failure page;
     mediabox_left := mediabox_left page;
     mediabox_bottom := mediabox_bottom page;
     mediabox_right := mediabox_right page;
     mediabox_top := mediabox_top page;
     get_Annots :=
       match get_Annots page with
       | AnnotsArray refs =>
           AnnotsArray (filter (λ annotation_ref, is_skipped annotation_ref = false)
                          refs)
       | AnnotsOther => AnnotsOther
       end |}.

(** ** [main] (lines 236-257)

    argparse reads the command line: it hands over the arguments, or it
    prints (the help text for -h, the usage and an error for a command
    line it does not accept) and raises SystemExit.  Paths are handled by
    pathlib: [with_suffix] stands for [Path.with_suffix], which raises
    ValueError ([None]) for a path without a file name, and [resolve] for
    [Path.resolve].  The file system decides what becomes of the write
    ([WriteOutcome]); the text [json.dump] produces is left out, the file
    holds the list. *)

Inductive main_exn :=
| ValueError
| OSError (msg : string)
| KeyboardInterrupt
| SystemExit (status : nat).

(** [isinstance(error, Exception)]: what [except Exception] catches. *)
Definition is_Exception (error : main_exn) : bool :=
  match error with
  | ValueError | OSError _ => true
  | KeyboardInterrupt | SystemExit _ => false
  end.

Inductive WriteOutcome :=
| WriteDone
| OpenFailed (error : main_exn)    (* [output_path.open('w')] raises *)
| DumpFailed (error : main_exn).   (* [json.dump] raises, the file is open *)

Inductive FileEffect :=
| Untouched
| Written (path : string) (fields : list (FieldRecord num))
| Truncated (path : string).

Inductive MainLine :=
| PrintUsage (status : nat)        (* printed by argparse before it exits *)
| Inspecting (line : Line num)
| PrintFailedWrite (error : main_exn)
| PrintSaved (count : nat) (path : string).

Record Args := {
  arg_pdf_path : string;          (* [str(Path(args.pdf_path))] *)
  arg_output : option string      (* [args.output] *)
}.

(** What [parser.parse_args()] makes of the command line. *)
Inductive CommandLine :=
| Parsed (args : Args)
| Rejected (status : nat).

Record Outcome := {
  printed : list MainLine;
  file_effect : FileEffect;
  escaped : option main_exn       (* an exception that leaves [main] *)
}.

(** A statement of [main]: it starts with the lines printed and the state
    of the output file so far, adds to them, and ends with a value or with
    an exception. *)
Definition Run (A : Type) : Type :=
  list MainLine * FileEffect → (list MainLine * FileEffect) * (A + main_exn).

#[global] Instance run_ret : MRet Run := λ A a w, (w, inl a).

#[global] Instance run_bind : MBind Run := λ A B k m w,
  match m w with
  | (w', inl a) => k a w'
  | (w', inr error) => (w', inr error)
  end.

Definition raise {A} (error : main_exn) : Run A := λ w, (w, inr error).

Definition print (lines : list MainLine) : Run unit :=
  λ w, ((w.1 ++ lines, w.2), inl ()).

Definition set_file (effect : FileEffect) : Run unit :=
  λ w, ((w.1, effect), inl ()).

(** [try: body] with [except Exception as error: handler] *)
Definition try_except {A} (body : Run A) (handler : main_exn → Run A) : Run A :=
  λ w, match body w with
       | (w', inl a) => (w', inl a)
       | (w', inr error) =>
           if is_Exception error then handler error w' else (w', inr error)
       end.

Section Main.
Variable with_suffix : string → string → option string.
Variable resolve : string → string.

Definition parse_args (command_line : CommandLine) : Run Args :=
  match command_line with
  | Parsed args => mret args
  | Rejected status => print [PrintUsage status];; raise (SystemExit status)
  end.

(** The call at line 247: it prints its lines and returns the list;
    nothing leaves it, whatever the PDF. *)
Definition call_get_form_field_positions (pdf_path : string) (src : Source num)
  : Run (list (FieldRecord num)) :=
  let out := get_form_field_positions pdf_path src in
  print (Inspecting <$> out.1);; mret out.2.

(** [Path(args.output) if args.output else
     pdf_path.with_suffix('.form_fields.json')] *)
Definition output_path_of (args : Args) : option string :=
  if opt_truthy str_truthy (arg_output args) then arg_output args
  else with_suffix (arg_pdf_path args) ".form_fields.json".

(** The body of the [try] (lines 251-252). *)
Definition write_json (try_write : string → WriteOutcome) (output_path : string)
    (fields : list (FieldRecord num)) : Run unit :=
  match try_write output_path with
  | WriteDone => set_file (Written output_path fields)
  | OpenFailed error => raise error
  | DumpFailed error => set_file (Truncated output_path);; raise error
  end.

(** The statements of [main]; the [return] of line 255 is the [false]
    that skips the last line. *)
Definition main_body (command_line : CommandLine) (src : Source num)
    (try_write : string → WriteOutcome) : Run unit :=
  args ← parse_args command_line;
  let pdf_path := arg_pdf_path args in
  fields ← call_get_form_field_positions pdf_path src;
  output_path ← match output_path_of args with
                | Some output_path => mret output_path
                | None => raise ValueError
                end;
  saved ← try_except
            (write_json try_write output_path fields;; mret true)
            (λ error, print [PrintFailedWrite error];; mret false);
  if saved : bool
  then print [PrintSaved (length fields) (resolve output_path)]
  else mret ().

(** [main()] run on a command line, a file system where opening the PDF
    gives [src] and writing behaves as [try_write]: what was printed, what
    became of the output file, and the exception that left [main], if one
    did. *)
Definition main (command_line : CommandLine) (src : Source num)
    (try_write : string → WriteOutcome) : Outcome :=
  let run := main_body command_line src try_write ([], Untouched) in
  {| printed := run.1.1;
     file_effect := run.1.2;
     escaped := match run.2 with
                | inl _ => None
                | inr error => Some error
                end |}.

End Main.

End Rest.

Arguments main_exn : clear implicits.
Arguments WriteOutcome : clear implicits.
Arguments FileEffect : clear implicits.
Arguments MainLine : clear implicits.
Arguments Outcome : clear implicits.
Arguments Run : clear implicits.

(** ** More documents and command lines to run the model on *)

(** A widget of "A" without a type of its own; the catalog has the type. *)
Definition untyped_with_catalog_pdf : Reader float :=
  {| get_fields := Some [("A", text_field)];
     pages := [letter_page [AnnotDict untyped_widget]] |}.

(** An annotation without [/T] and without a parent, with a rect that has
    no length. *)
Definition unnamed_unsized : Annotation float :=
  {| annot := {| get_T := None; get_Rect := Some Unsized; get_FT := None |};
     get_Parent := None |}.

(** A named widget without a rect. *)
Definition rectless_widget : Annotation float :=
  {| annot := {| get_T := Some "A"; get_Rect := None; get_FT := Some "/Tx" |};
     get_Parent := None |}.

(** [-o out.json] on a PDF that does not exist. *)
Definition missing_pdf_args : Args :=
  {| arg_pdf_path := "missing.pdf"; arg_output := Some "out.json" |}.



(** A widget of "A" whose [/Rect] is a dictionary of four keys. *)
Definition dictionary_rect_pdf : Reader float :=
  {| get_fields := Some [("A", text_field)];
     pages := [letter_page [plain_widget (Some "A") (Some (Mapping 4))
                              (Some "/Tx")]] |}.

(** A page whose [/Annots] is an indirect reference to the array. *)
Definition indirect_annots_pdf : Reader float :=
  {| get_fields := Some [("A", text_field)];
     pages := [{| mediabox_failure := None;
                  mediabox_left := pts 0; mediabox_bottom := pts 0;
                  mediabox_right := pts 612; mediabox_top := pts 792;
                  get_Annots := AnnotsOther |}] |}.

(** A page without a media box. *)
Definition no_mediabox_pdf : Reader float :=
  {| get_fields := Some [("A", text_field)];
     pages := [{| mediabox_failure := Some "object of type 'NoneType' has no len()";
                  mediabox_left := pts 0; mediabox_bottom := pts 0;
                  mediabox_right := pts 0; mediabox_top := pts 0;
                  get_Annots := AnnotsArray [] |}] |}.

(** The one widget of the text field "Name". *)
Definition name_field_widget : Widget float :=
  default synthetic_widget
    (head (default [] (widgets_by_field (final_state name_field_pdf) !! "Name"))).

(** * Properties *)

(** ** The order on field names *)

Lemma ascii_compare_lt_trans (x y z : ascii) :
  Ascii.compare x y = Lt → Ascii.compare y z = Lt → Ascii.compare x z = Lt.
Proof.
  unfold Ascii.compare. rewrite !N.compare_lt_iff. apply N.lt_trans.
Qed.

Lemma string_compare_lt_trans (a : string) :
  ∀ b c, String.compare a b = Lt → String.compare b c = Lt → String.compare a c = Lt.
Proof.
  induction a as [|x a IH]; intros [|y b] [|z c]; simpl; try done.
  destruct (Ascii.compare x y) eqn:Exy; try done.
  - apply Ascii.compare_eq_iff in Exy as ->.
    destruct (Ascii.compare y z); try done. apply IH.
  - destruct (Ascii.compare y z) eqn:Eyz; try done.
    + apply Ascii.compare_eq_iff in Eyz as <-. by rewrite Exy.
    + by rewrite (ascii_compare_lt_trans _ _ _ Exy Eyz).
Qed.

Lemma string_compare_refl (a : string) : String.compare a a = Eq.
Proof.
  induction a as [|x a IH]; simpl; [done|].
  unfold Ascii.compare. by rewrite N.compare_refl.
Qed.

Lemma str_le_cases (a b : string) :
  str_le a b ↔ a = b ∨ String.compare a b = Lt.
Proof.
  unfold str_le, String.leb. split.
  - destruct (String.compare a b) eqn:E; simpl; try done.
    + left. by apply String.compare_eq_iff.
    + by right.
  - intros [-> | ->]; [by rewrite string_compare_refl|done].
Qed.

#[global] Instance str_le_refl : Reflexive str_le.
Proof. intros a. apply str_le_cases. by left. Qed.

#[global] Instance str_le_trans : Transitive str_le.
Proof.
  intros a b c [-> | Hab]%str_le_cases [-> | Hbc]%str_le_cases;
    apply str_le_cases; eauto using string_compare_lt_trans.
Qed.

#[global] Instance str_le_total : Total str_le.
Proof.
  intros a b. unfold str_le.
  destruct (String.leb_total a b) as [-> | ->]; simpl; auto.
Qed.

#[global] Instance str_le_antisymm : AntiSymm (=) str_le.
Proof.
  intros a b Hab Hba. apply String.leb_antisym; by apply Is_true_true.
Qed.

(** ** The exception monad and names *)

Lemma bind_Ok {A B} (a : A) (f : A → result B) : Ok a ≫= f = f a.
Proof. done. Qed.

Lemma bind_Raise {A B} (err : exn) (f : A → result B) : Raise err ≫= f = Raise err.
Proof. done. Qed.

Lemma normalise_name_is_some (text : string) : is_Some (_normalise_name (Some text)).
Proof.
  unfold _normalise_name. destruct text as [|c rest]; [by eexists|].
  destruct c as [[] [] [] [] [] [] [] []]; by eexists.
Qed.

Section Traversal.
Context {num : Type} `{PyFloat num}.
Implicit Types (st : State num) (e : Entry num) (entries : list (Entry num)).
Implicit Types (field_definitions : gmap string (PdfDict num)).

(** ** The loops apply the entries of the traversal, in order *)

Lemma apply_entries_metrics entries st :
  page_metrics (foldl apply_entry st entries) = page_metrics st.
Proof.
  revert st. induction entries as [|e entries IH]; intros st; simpl; [done|].
  by rewrite IH.
Qed.

Lemma apply_entries_with_metrics pm entries st :
  foldl apply_entry (with_metrics pm st) entries =
  with_metrics pm (foldl apply_entry st entries).
Proof.
  revert st. induction entries as [|e entries IH]; intros st; simpl; [done|].
  by rewrite <- IH.
Qed.

Lemma with_metrics_same st : with_metrics (page_metrics st) st = st.
Proof. by destruct st. Qed.

Lemma resolve_annotation_ext field_definitions page_index pm1 pm2 annotation_ref :
  pm1 !! page_index = pm2 !! page_index →
  resolve_annotation field_definitions page_index pm1 annotation_ref =
  resolve_annotation field_definitions page_index pm2 annotation_ref.
Proof.
  intros Heq. unfold resolve_annotation, subscript. by rewrite Heq.
Qed.

Lemma entries_of_annots_ext field_definitions page_index pm1 pm2 annotations :
  pm1 !! page_index = pm2 !! page_index →
  entries_of_annots field_definitions page_index pm1 annotations =
  entries_of_annots field_definitions page_index pm2 annotations.
Proof.
  intros Heq. induction annotations as [|a l IH]; simpl; [done|].
  by rewrite IH, (resolve_annotation_ext _ _ pm1 pm2).
Qed.

Lemma process_annotation_cases field_definitions page_index st annotation_ref :
  process_annotation field_definitions page_index st annotation_ref =
  match resolve_annotation field_definitions page_index (page_metrics st)
          annotation_ref with
  | Ok (Some e) => Ok (apply_entry st e)
  | Ok None => Ok st
  | Raise err => Raise err
  end.
Proof.
  unfold process_annotation.
  by destruct (resolve_annotation _ _ _ annotation_ref) as [[e|]|err].
Qed.

Lemma iterate_cases (page : Page num) :
  iterate (get_Annots page) = Ok (Annots page) ∨
  get_Annots page = AnnotsOther ∧ iterate (get_Annots page) = Raise TypeError.
Proof. unfold Annots. destruct (get_Annots page); [by left|by right]. Qed.

Lemma measure_page_cases (page : Page num) :
  measure_page page = Ok (page_size_of page) ∨
  ∃ msg, measure_page page = Raise (ReadError msg).
Proof.
  unfold measure_page. destruct (mediabox_failure page); [right|left]; eauto.
Qed.

Lemma process_page_cases field_definitions st page_index page :
  process_page field_definitions st (page_index, page) =
  (metrics ← measure_page page;
   annotations ← iterate (get_Annots page);
   foldM (process_annotation field_definitions page_index)
     (with_metrics (<[page_index := metrics]> (page_metrics st)) st)
     annotations).
Proof. done. Qed.

Lemma foldM_process_annotation field_definitions page_index annotations :
  ∀ st,
    foldM (process_annotation field_definitions page_index) st annotations =
    (entries ← entries_of_annots field_definitions page_index (page_metrics st)
                 annotations;
     Ok (foldl apply_entry st entries)).
Proof.
  induction annotations as [|a l IH]; intros st; [done|].
  cbn [foldM entries_of_annots]. rewrite process_annotation_cases.
  destruct (resolve_annotation _ _ _ a) as [[e|]|err]; cbn; [| |done].
  - rewrite IH. cbn. by destruct (entries_of_annots _ _ _ l).
  - rewrite IH. by destruct (entries_of_annots _ _ _ l).
Qed.

Lemma foldM_process_page field_definitions indexed_pages :
  ∀ st,
    foldM (process_page field_definitions) st indexed_pages =
    (entries ← entries_of_pages field_definitions indexed_pages;
     Ok (foldl apply_entry
           (with_metrics (record_metrics (page_metrics st) indexed_pages) st)
           entries)).
Proof.
  induction indexed_pages as [|[i p] l IH]; intros st.
  - cbn. by rewrite with_metrics_same.
  - cbn [foldM entries_of_pages fst snd]. rewrite process_page_cases.
    destruct (measure_page_cases p) as [-> | [msg ->]]; [|done]. rewrite !bind_Ok.
    destruct (iterate_cases p) as [-> | [_ ->]]; [|done]. rewrite !bind_Ok.
    rewrite foldM_process_annotation.
    rewrite (entries_of_annots_ext _ _ _ {[i := page_size_of p]})
      by (cbn; by rewrite lookup_insert_eq, lookup_singleton_eq).
    destruct (entries_of_annots _ _ _ (Annots p)) as [es|err]; cbn; [|done].
    rewrite IH. destruct (entries_of_pages _ l) as [later|err]; cbn; [|done].
    f_equal. rewrite foldl_app, apply_entries_metrics.
    by rewrite !apply_entries_with_metrics.
Qed.

(** ** What the two maps hold after a list of entries *)

Lemma widgets_named_cons field_name e entries :
  widgets_named field_name (e :: entries) =
  if decide (e_name e = field_name)
  then e_widget e :: widgets_named field_name entries
  else widgets_named field_name entries.
Proof.
  unfold widgets_named. rewrite filter_cons. by case_decide.
Qed.

Lemma types_named_cons field_name e entries :
  types_named field_name (e :: entries) =
  if decide (e_name e = field_name)
  then e_type e :: types_named field_name entries
  else types_named field_name entries.
Proof.
  unfold types_named. rewrite filter_cons. by case_decide.
Qed.

Lemma widgets_named_app field_name entries1 entries2 :
  widgets_named field_name (entries1 ++ entries2) =
  widgets_named field_name entries1 ++ widgets_named field_name entries2.
Proof. unfold widgets_named. by rewrite filter_app, fmap_app. Qed.

Lemma widgets_named_nil field_name entries :
  widgets_named field_name entries = [] ↔
  ∀ e, e ∈ entries → e_name e ≠ field_name.
Proof.
  induction entries as [|e entries IH]; [set_solver|].
  rewrite widgets_named_cons. case_decide as Heq.
  - split; [done|]. intros Hall. destruct (Hall e); [left|done].
  - rewrite IH. set_solver.
Qed.

Lemma widgets_after_entries entries : ∀ st field_name,
  default [] (widgets_by_field (foldl apply_entry st entries) !! field_name) =
  default [] (widgets_by_field st !! field_name) ++ widgets_named field_name entries.
Proof.
  induction entries as [|e entries IH]; intros st n.
  - cbn. by rewrite app_nil_r.
  - cbn [foldl]. rewrite IH, widgets_named_cons. cbn. unfold append_widget.
    case_decide as Heq.
    + subst n. rewrite lookup_insert_eq. cbn. by rewrite <- app_assoc.
    + by rewrite lookup_insert_ne.
Qed.

Lemma widgets_key_after_entries entries : ∀ st field_name,
  field_name ∈ dom (widgets_by_field (foldl apply_entry st entries)) ↔
  field_name ∈ dom (widgets_by_field st) ∨ widgets_named field_name entries ≠ [].
Proof.
  induction entries as [|e entries IH]; intros st n.
  - cbn. naive_solver.
  - cbn [foldl]. rewrite IH, widgets_named_cons. cbn. unfold append_widget.
    rewrite dom_insert, elem_of_union, elem_of_singleton.
    case_decide; naive_solver.
Qed.

Lemma types_after_entries entries : ∀ st field_name,
  field_types (foldl apply_entry st entries) !! field_name =
  match last (types_named field_name entries) with
  | Some assigned => Some assigned
  | None => field_types st !! field_name
  end.
Proof.
  induction entries as [|e entries IH]; intros st n; [done|].
  cbn [foldl]. rewrite IH, types_named_cons. cbn.
  case_decide as Heq.
  - subst n. rewrite last_cons, lookup_insert_eq.
    by destruct (last (types_named (e_name e) entries)).
  - by rewrite lookup_insert_ne.
Qed.

(** The widget resolver applies the entries of the traversal to the empty
    maps, in page-then-annotation order. *)
Lemma resolve_widgets_entries field_definitions (pages : list (Page num)) :
  resolve_widgets field_definitions pages =
  (entries ← entries_of_pages field_definitions (enumerate1 pages);
   Ok (foldl apply_entry
         (with_metrics (record_metrics ∅ (enumerate1 pages)) initial_state)
         entries)).
Proof. unfold resolve_widgets. by rewrite foldM_process_page. Qed.

Lemma resolve_widgets_ok field_definitions (pages : list (Page num)) st :
  resolve_widgets field_definitions pages = Ok st →
  ∃ entries,
    entries_of_pages field_definitions (enumerate1 pages) = Ok entries ∧
    page_metrics st = record_metrics ∅ (enumerate1 pages) ∧
    (∀ field_name,
        default [] (widgets_by_field st !! field_name) =
        widgets_named field_name entries) ∧
    (∀ field_name,
        field_name ∈ dom (widgets_by_field st) ↔
        widgets_named field_name entries ≠ []) ∧
    (∀ field_name,
        field_type_of (field_types st) field_name =
        last (types_named field_name entries) ≫= id).
Proof.
  rewrite resolve_widgets_entries.
  destruct (entries_of_pages _ _) as [entries|err]; cbn; [|done].
  intros [= <-]. exists entries. split; [done|]. split; [|split; [|split]].
  - by rewrite apply_entries_metrics.
  - intros n. by rewrite widgets_after_entries.
  - intros n. rewrite widgets_key_after_entries. cbn. set_solver.
  - intros n. unfold field_type_of. rewrite types_after_entries. cbn.
    by destruct (last (types_named n entries)).
Qed.

End Traversal.

Section Origins.
Context {num : Type} `{PyFloat num}.
Implicit Types (st : State num) (e : Entry num) (entries : list (Entry num)).
Implicit Types (a : Annotation num) (ref : AnnotationObject num).
Implicit Types (field_definitions : gmap string (PdfDict num)).

(** ** Where an entry comes from *)

Lemma resolve_annotation_some field_definitions page_index pm a e :
  resolve_annotation field_definitions page_index pm (AnnotDict a) = Ok (Some e) →
  ∃ name_obj rect rect_info metrics type_obj,
    name_obj_of a = Ok name_obj ∧
    _normalise_name name_obj = Some (e_name e) ∧
    rect_of_annotation a = Ok rect ∧
    _resolve_rect rect = Ok rect_info ∧
    pm !! page_index = Some metrics ∧
    type_obj_of field_definitions (e_name e) a = Ok type_obj ∧
    e_type e = _normalise_name type_obj ∧
    e_widget e = make_widget page_index (sz_height metrics) rect rect_info.
Proof.
  unfold resolve_annotation, subscript.
  destruct (name_obj_of a) as [name_obj|]; cbn; [|done].
  destruct (_normalise_name name_obj) as [field_name|] eqn:Ename; [|done].
  destruct (rect_of_annotation a) as [rect|]; cbn; [|done].
  destruct (_resolve_rect rect) as [rect_info|] eqn:Einfo; cbn; [|done].
  destruct (pm !! page_index) as [metrics|]; cbn; [|done].
  destruct (type_obj_of _ field_name a) as [type_obj|] eqn:Etype; cbn; [|done].
  intros [= <-]. cbn. by exists name_obj, rect, rect_info, metrics, type_obj.
Qed.

Lemma type_obj_of_ok field_definitions field_name a type_obj :
  type_obj_of field_definitions field_name a = Ok type_obj →
  let own_type := match get_Parent a with
                  | Some (ParentDict d) => get_FT d
                  | _ => get_FT (annot a)
                  end in
  type_obj = if opt_truthy str_truthy own_type then own_type
             else field_definitions !! field_name ≫= get_FT.
Proof.
  unfold type_obj_of, parent_or_annotation_get. intros Htype. cbv zeta.
  destruct (get_Parent a) as [[d|]|]; [| done |];
    rewrite bind_Ok in Htype; unfold py_or in Htype;
    destruct (opt_truthy str_truthy _); by injection Htype.
Qed.

Lemma resolve_annotation_none field_definitions page_index pm a :
  resolve_annotation field_definitions page_index pm (AnnotDict a) = Ok None ↔
  name_obj_of a = Ok None.
Proof.
  unfold resolve_annotation.
  destruct (name_obj_of a) as [[text|]|]; [|done|done].
  rewrite bind_Ok.
  destruct (normalise_name_is_some text) as [n ->].
  destruct (rect_of_annotation a) as [rect|]; cbn; [|done].
  destruct (_resolve_rect rect); cbn; [|done].
  destruct (subscript pm page_index); cbn; [|done].
  by destruct (type_obj_of _ n a).
Qed.

(** A step that is not skipped applies the entry of its annotation. *)
Lemma process_annotation_named field_definitions page_index st st' a name_obj
    field_name :
  process_annotation field_definitions page_index st (AnnotDict a) = Ok st' →
  name_obj_of a = Ok name_obj →
  _normalise_name name_obj = Some field_name →
  ∃ rect rect_info metrics type_obj,
    rect_of_annotation a = Ok rect ∧
    _resolve_rect rect = Ok rect_info ∧
    page_metrics st !! page_index = Some metrics ∧
    type_obj_of field_definitions field_name a = Ok type_obj ∧
    st' = apply_entry st
            {| e_name := field_name;
               e_type := _normalise_name type_obj;
               e_widget := make_widget page_index (sz_height metrics) rect rect_info |}.
Proof.
  intros Hstep Hname Hnorm.
  rewrite process_annotation_cases in Hstep.
  destruct (resolve_annotation _ _ _ _) as [[e|]|] eqn:Hres; [| |done].
  - injection Hstep as <-.
    apply resolve_annotation_some in Hres
      as (name_obj' & rect & info & metrics & type_obj & Hname' & Hnorm' & Hrect
          & Hinfo & Hmetrics & Htype & Hetype & Hwidget).
    rewrite Hname in Hname'. injection Hname' as <-.
    rewrite Hnorm in Hnorm'. injection Hnorm' as ->.
    exists rect, info, metrics, type_obj. do 4 (split; [done|]).
    destruct e as [n t w]. cbn in *. by subst.
  - apply resolve_annotation_none in Hres. rewrite Hname in Hres.
    by injection Hres as ->.
Qed.

(** The name object is the annotation's own [/T] when that is truthy, and
    otherwise whatever [/T] the parent has. *)
Lemma name_obj_of_cases a :
  name_obj_of a =
  if opt_truthy str_truthy (get_T (annot a)) then Ok (get_T (annot a))
  else match get_Parent a with
       | None => Ok None
       | Some (ParentDict d) => Ok (get_T d)
       | Some ParentOther => Raise AttributeError
       end.
Proof. done. Qed.

(** [page_metrics[page_index]] never raises: the page was recorded first. *)
Lemma subscript_recorded (pm : gmap nat (Size num)) page_index metrics :
  subscript (<[page_index := metrics]> pm) page_index = Ok metrics.
Proof. unfold subscript. by rewrite lookup_insert_eq. Qed.

Lemma entries_of_annots_elem field_definitions page_index pm annotations :
  ∀ entries e,
    entries_of_annots field_definitions page_index pm annotations = Ok entries →
    e ∈ entries →
    ∃ annotation_ref,
      annotation_ref ∈ annotations ∧
      resolve_annotation field_definitions page_index pm annotation_ref =
      Ok (Some e).
Proof.
  induction annotations as [|a l IH]; intros entries e; cbn.
  - intros [= <-] Hin. by apply elem_of_nil in Hin.
  - destruct (resolve_annotation _ _ _ a) as [first|] eqn:Efirst; cbn; [|done].
    destruct (entries_of_annots _ _ _ l) as [rest|]; cbn; [|done].
    intros [= <-] Hin.
    destruct first as [e0|]; cbn in Hin.
    + apply elem_of_cons in Hin as [-> | Hin].
      * exists a. split; [left|done].
      * destruct (IH rest e eq_refl Hin) as (ref & Href & Hres).
        exists ref. split; [by right|done].
    + destruct (IH rest e eq_refl Hin) as (ref & Href & Hres).
      exists ref. split; [by right|done].
Qed.

Lemma entries_of_pages_elem field_definitions (indexed_pages : list (nat * Page num)) :
  ∀ entries e,
    entries_of_pages field_definitions indexed_pages = Ok entries →
    e ∈ entries →
    ∃ page_index page annotation_ref,
      (page_index, page) ∈ indexed_pages ∧
      annotation_ref ∈ Annots page ∧
      resolve_annotation field_definitions page_index
        {[page_index := page_size_of page]} annotation_ref = Ok (Some e).
Proof.
  induction indexed_pages as [|[i p] l IH]; intros entries e; cbn.
  - intros [= <-] Hin. by apply elem_of_nil in Hin.
  - destruct (measure_page_cases p) as [-> | [msg ->]]; [|done]. rewrite bind_Ok.
    destruct (iterate_cases p) as [-> | [_ ->]]; [|done]. rewrite bind_Ok.
    destruct (entries_of_annots _ _ _ (Annots p)) as [es|] eqn:Ees; cbn; [|done].
    destruct (entries_of_pages _ l) as [later|]; cbn; [|done].
    intros [= <-] Hin. apply elem_of_app in Hin as [Hin|Hin].
    + destruct (entries_of_annots_elem _ _ _ _ _ _ Ees Hin) as (ref & Href & Hres).
      exists i, p, ref. split; [left|done].
    + destruct (IH later e eq_refl Hin) as (j & q & ref & Hjq & Href & Hres).
      exists j, q, ref. split; [by right|done].
Qed.

Lemma widgets_named_elem field_name entries (w : Widget num) :
  w ∈ widgets_named field_name entries →
  ∃ e, e ∈ entries ∧ e_name e = field_name ∧ e_widget e = w.
Proof.
  unfold widgets_named. intros (e & -> & He)%list_elem_of_fmap.
  apply list_elem_of_filter in He as [Hname He]. by exists e.
Qed.

(** ** Page metrics of a run *)

Lemma record_metrics_other (indexed_pages : list (nat * Page num)) :
  ∀ pm page_index,
    page_index ∉ indexed_pages.*1 →
    record_metrics pm indexed_pages !! page_index = pm !! page_index.
Proof.
  induction indexed_pages as [|[j q] l IH]; intros pm i Hi; [done|].
  cbn in *. apply not_elem_of_cons in Hi as [Hne Hi].
  unfold record_metrics in *. cbn. rewrite IH by done.
  by rewrite lookup_insert_ne.
Qed.

Lemma record_metrics_elem (indexed_pages : list (nat * Page num)) :
  ∀ pm page_index page,
    NoDup indexed_pages.*1 →
    (page_index, page) ∈ indexed_pages →
    record_metrics pm indexed_pages !! page_index = Some (page_size_of page).
Proof.
  induction indexed_pages as [|[j q] l IH]; intros pm i p Hnd Hin.
  - by apply elem_of_nil in Hin.
  - cbn in Hnd. apply NoDup_cons in Hnd as [Hj Hnd].
    apply elem_of_cons in Hin as [[= -> ->] | Hin].
    + unfold record_metrics. cbn.
      fold (record_metrics (<[j := page_size_of q]> pm) l).
      rewrite record_metrics_other by done. by rewrite lookup_insert_eq.
    + unfold record_metrics. cbn. by apply IH.
Qed.

Lemma enumerate1_indices {A} (l : list A) : (enumerate1 l).*1 = seq 1 (length l).
Proof. unfold enumerate1. apply fst_zip. by rewrite length_seq. Qed.

Lemma zip_seq_elem {A} (l : list A) :
  ∀ start i (x : A),
    (i, x) ∈ zip (seq start (length l)) l →
    ∃ k, i = start + k ∧ l !! k = Some x.
Proof.
  induction l as [|y l IH]; intros start i x Hin; cbn in Hin.
  - by apply elem_of_nil in Hin.
  - apply elem_of_cons in Hin as [[= -> ->] | Hin].
    + exists 0. split; [lia|done].
    + destruct (IH _ _ _ Hin) as (k & -> & Hk).
      exists (S k). split; [lia|done].
Qed.

Lemma enumerate1_elem {A} (l : list A) i (x : A) :
  (i, x) ∈ enumerate1 l → ∃ k, i = S k ∧ l !! k = Some x.
Proof. intros Hin. by apply zip_seq_elem in Hin. Qed.

Lemma resolve_rect_wrong_arity (coords : list (Coord num)) :
  length coords ≠ 4 → _resolve_rect (Some (Array coords)) = Ok null_rect_info.
Proof.
  intros Hlen.
  destruct coords as [|e0 [|e1 [|e2 [|e3 [|e4 rest]]]]]; try done.
Qed.

(** What rect resolution does with each kind of rect: it returns, or the
    rect has no length, or it is a dictionary of four keys, or it has four
    entries one of which is too large for a float. *)
Lemma resolve_rect_cases (rect : option (RectObject num)) :
  (∃ rect_info, _resolve_rect rect = Ok rect_info) ∨
  rect = Some Unsized ∧ _resolve_rect rect = Raise TypeError ∨
  rect = Some (Mapping 4) ∧ _resolve_rect rect = Raise KeyError ∨
  ∃ c0 c1 c2 c3,
    rect = Some (Array [c0; c1; c2; c3]) ∧ TooLarge ∈ [c0; c1; c2; c3] ∧
    _resolve_rect rect = Raise OverflowError.
Proof.
  destruct rect as [[coords|size|]|]; [| |by right; left|by left; eexists].
  - destruct coords as [|c0 [|c1 [|c2 [|c3 [|c4 rest]]]]]; try (by left; eexists).
    destruct c0 as [v0| |], c1 as [v1| |], c2 as [v2| |], c3 as [v3| |];
      try (by left; eexists);
      right; right; right; eexists _, _, _, _;
      (split; [done|]); (split; [|done]); rewrite !elem_of_cons; auto 6.
  - destruct size as [|[|[|[|[|size]]]]]; try (by left; eexists).
    right. right. by left.
Qed.

(** In an array of four entries a non-numeric entry makes the values
    computed from it null. *)
Lemma resolve_rect_null_propagates (b r t : num) :
  _resolve_rect (Some (Array [NonNumeric; Numeric b; Numeric r; Numeric t])) =
  Ok {| top_left := {| pt_x := None; pt_y := Some t |};
        top_right := {| pt_x := Some r; pt_y := Some t |};
        bottom_left := {| pt_x := None; pt_y := Some b |};
        bottom_right := {| pt_x := Some r; pt_y := Some b |};
        ri_width := None;
        ri_height := Some (fsub t b) |}.
Proof. done. Qed.

Lemma enumerate1_NoDup {A} (l : list A) : NoDup (enumerate1 l).*1.
Proof. rewrite enumerate1_indices. apply NoDup_seq. Qed.

End Origins.

Section Aggregation.
Context {num : Type} `{PyFloat num}.
Implicit Types (st : State num) (reader : Reader num).
Implicit Types (field_definitions : gmap string (PdfDict num)).

(** ** The names the aggregator iterates over *)

Lemma sorted_names_elem field_definitions st field_name :
  field_name ∈ sorted_names field_definitions st ↔
  field_name ∈ dom field_definitions ∪ dom (widgets_by_field st).
Proof.
  unfold sorted_names. by rewrite merge_sort_Permutation, elem_of_elements.
Qed.

Lemma sorted_names_NoDup field_definitions st :
  NoDup (sorted_names field_definitions st).
Proof.
  unfold sorted_names. rewrite merge_sort_Permutation. apply NoDup_elements.
Qed.

Lemma sorted_names_sorted field_definitions st :
  StronglySorted str_le (sorted_names field_definitions st).
Proof. unfold sorted_names. apply (StronglySorted_merge_sort _). Qed.

(** ** The returned list of a run that reaches the aggregator *)

Lemma results_of_run pdf_path reader st :
  pages reader ≠ [] →
  resolve_widgets (catalog_of reader) (pages reader) = Ok st →
  (get_form_field_positions pdf_path (Opened reader)).2 =
  make_record st <$> sorted_names (catalog_of reader) st.
Proof.
  intros Hpages Hrun. unfold get_form_field_positions, open_and_inspect, inspect.
  destruct (pages reader) as [|p ps] eqn:Ep; [done|].
  by rewrite Hrun.
Qed.

Lemma record_names st (names : list string) :
  name <$> (make_record st <$> names) = names.
Proof. induction names as [|n names IH]; [done|]. cbn. by rewrite IH. Qed.

Lemma results_empty_or_run pdf_path (src : Source num) :
  (get_form_field_positions pdf_path src).2 = [] ∨
  ∃ reader st,
    src = Opened reader ∧ pages reader ≠ [] ∧
    resolve_widgets (catalog_of reader) (pages reader) = Ok st.
Proof.
  destruct src as [|msg|reader]; [by left|by left|].
  unfold get_form_field_positions, open_and_inspect, inspect.
  destruct (pages reader) as [|p ps] eqn:Ep; [by left|].
  destruct (resolve_widgets _ (p :: ps)) as [st|err] eqn:Erun.
  - right. exists reader, st. by rewrite Ep.
  - left. cbn. by destruct err.
Qed.

Lemma emitted_record pdf_path reader st (r : FieldRecord num) :
  resolve_widgets (catalog_of reader) (pages reader) = Ok st →
  r ∈ (get_form_field_positions pdf_path (Opened reader)).2 →
  r = make_record st (name r) ∧
  name r ∈ dom (catalog_of reader) ∪ dom (widgets_by_field st).
Proof.
  intros Hrun Hr.
  destruct (decide (pages reader = [])) as [Hnil|Hpages].
  - exfalso. unfold get_form_field_positions, open_and_inspect, inspect in Hr.
    rewrite Hnil in Hr. cbn in Hr. by apply elem_of_nil in Hr.
  - rewrite (results_of_run _ _ st) in Hr by done.
    apply list_elem_of_fmap in Hr as (n & -> & Hn).
    split; [done|]. by apply sorted_names_elem.
Qed.

End Aggregation.

Section Claims.
Context {num : Type} `{PyFloat num}.
Implicit Types (st : State num) (reader : Reader num).


(** C9. The displayed type is the raw code looked up in the fixed table:
    Tx gives text, Sig signature, Btn check, Ch choice, Rd radio; a code
    that is not in the table is kept as it is; no code gives no type.
    Every returned record carries the type so obtained from the code
    stored for its name. *)
Theorem displayed_type_lookup :
  map_field_type (Some "Tx") = Some "text" ∧
  map_field_type (Some "Sig") = Some "signature" ∧
  map_field_type (Some "Btn") = Some "check" ∧
  map_field_type (Some "Ch") = Some "choice" ∧
  map_field_type (Some "Rd") = Some "radio" ∧
  (∀ code, FIELD_TYPE_MAP !! code = None → map_field_type (Some code) = Some code) ∧
  map_field_type None = None ∧
  (∀ pdf_path reader st (r : FieldRecord num),
      resolve_widgets (catalog_of reader) (pages reader) = Ok st →
      r ∈ (get_form_field_positions pdf_path (Opened reader)).2 →
      field_type r = map_field_type (field_type_of (field_types st) (name r))).
Proof.
  repeat split; try reflexivity.
  - intros code Hcode. unfold map_field_type. by rewrite Hcode.
  - intros pdf_path reader st r Hrun Hr.
    destruct (emitted_record _ _ _ _ Hrun Hr) as [-> _]. done.
Qed.

(** C4, amended.  For a document with at least one page whose pages are
    processed without a failure, the returned list has exactly one record
    per name in the union of the keys of the catalog and of the widget
    map, and it is sorted ascending by name. *)
Theorem records_sorted_unique pdf_path reader st :
  pages reader ≠ [] →
  resolve_widgets (catalog_of reader) (pages reader) = Ok st →
  let names := name <$> (get_form_field_positions pdf_path (Opened reader)).2 in
  StronglySorted str_le names ∧
  NoDup names ∧
  ∀ field_name,
    field_name ∈ names ↔
    field_name ∈ dom (catalog_of reader) ∪ dom (widgets_by_field st).
Proof.
  intros Hpages Hrun names. subst names.
  rewrite (results_of_run _ _ st) by done.
  rewrite record_names.
  split; [apply sorted_names_sorted|].
  split; [apply sorted_names_NoDup|].
  intros n. apply sorted_names_elem.
Qed.

(** C5. Failures are absorbed and nothing is returned in part.  When the
    file is not found, the condition is printed and the list is empty.
    When anything else raises, also after some widgets were collected,
    the error is printed and the list is empty.  A document without
    pages prints its own message and returns the empty list without an
    error; no annotation is looked at. *)
Theorem failures_absorbed :
  (∀ pdf_path,
      get_form_field_positions pdf_path (NoSuchFile : Source num) =
      ([PrintNotFound pdf_path], [])) ∧
  (∀ pdf_path (src : Source num) error,
      open_and_inspect src = Raise error →
      error ≠ FileNotFoundError →
      get_form_field_positions pdf_path src = ([PrintUnexpected error], [])) ∧
  (∀ pdf_path reader,
      pages reader = [] →
      inspect reader = Ok ([PrintNoPages], []) ∧
      get_form_field_positions pdf_path (Opened reader) = ([PrintNoPages], [])).
Proof.
  split; [done|]. split.
  - intros pdf_path src error Hraise Hother.
    unfold get_form_field_positions. rewrite Hraise. by destruct error.
  - intros pdf_path reader Hnil.
    unfold get_form_field_positions, open_and_inspect, inspect.
    by rewrite Hnil.
Qed.

(** C3. Every returned record takes its geometry from the first widget of
    its name in page-then-annotation order: page, page size, bounding
    box, position and size are those of that widget, rounded.  A name
    without a widget (a field of the catalog only) still has a record,
    built from the synthetic empty widget: its page and all its geometry
    fields are null. *)
Theorem representative_widget pdf_path reader st (r : FieldRecord num) :
  resolve_widgets (catalog_of reader) (pages reader) = Ok st →
  r ∈ (get_form_field_positions pdf_path (Opened reader)).2 →
  ∃ entries,
    entries_of_pages (catalog_of reader) (enumerate1 (pages reader)) = Ok entries ∧
    default [] (widgets_by_field st !! name r) = widgets_named (name r) entries ∧
    match widgets_named (name r) entries with
    | first :: _ =>
        page r = w_page first ∧
        page_size r = _round_size (metrics_of (page_metrics st) (w_page first)) ∧
        bounding_box r = _round_box_dict (w_boundingBox first) ∧
        position r = _round_point (w_position first) ∧
        size_ r = _round_size (w_size first)
    | [] =>
        page r = None ∧ page_size r = None ∧ bounding_box r = None ∧
        position r = None ∧ size_ r = None
    end.
Proof.
  intros Hrun Hr.
  destruct (emitted_record _ _ _ _ Hrun Hr) as [Hrec _].
  destruct (resolve_widgets_ok _ _ _ Hrun) as (entries & Hes & _ & Hws & _).
  exists entries. split; [done|]. split; [done|].
  rewrite Hrec. unfold make_record. cbn. rewrite Hws.
  by destruct (widgets_named (name r) entries).
Qed.

(** C2. Every widget of a run belongs to an annotation on some page, and
    its flutterConfig is present only when the rect of that annotation
    is present (truthy) and the height of the page is known, which it is
    for every page visited.  When present, pageIndex is the 0-based index
    of the page, x is bottom_left.x, width and height are those of the
    RectInfo, y is page_height - top_left.y when top_left.y is not null
    and null otherwise, and the four numbers are rounded to 3 decimals.
    When the rect is absent there is no flutterConfig. *)
Theorem flutter_config_of_widget reader st field_name (w : Widget num) :
  resolve_widgets (catalog_of reader) (pages reader) = Ok st →
  w ∈ default [] (widgets_by_field st !! field_name) →
  ∃ k page a rect rect_info,
    pages reader !! k = Some page ∧
    AnnotDict a ∈ Annots page ∧
    rect_of_annotation a = Ok rect ∧
    _resolve_rect rect = Ok rect_info ∧
    w_page w = Some (S k) ∧
    page_metrics st !! S k = Some (page_size_of page) ∧
    let page_height := fsub (mediabox_top page) (mediabox_bottom page) in
    match w_flutterConfig w with
    | Some fc =>
        opt_truthy rect_truthy rect = true ∧
        sz_height (page_size_of page) = Some page_height ∧
        w_boundingBox w = Some rect_info ∧
        pageIndex fc = k ∧
        fc_x fc = _format_number (pt_x (bottom_left rect_info)) ∧
        fc_y fc = match pt_y (top_left rect_info) with
                  | Some top => Some (round3 (fsub page_height top))
                  | None => None
                  end ∧
        fc_width fc = _format_number (ri_width rect_info) ∧
        fc_height fc = _format_number (ri_height rect_info)
    | None => opt_truthy rect_truthy rect = false
    end.
Proof.
  intros Hrun Hw.
  destruct (resolve_widgets_ok _ _ _ Hrun) as (entries & Hes & Hpm & Hws & _).
  rewrite Hws in Hw. apply widgets_named_elem in Hw as (e & He & _ & <-).
  destruct (entries_of_pages_elem _ _ _ _ Hes He) as (i & p & ref & Hip & Href & Hres).
  destruct ref as [a|]; [|done].
  apply resolve_annotation_some in Hres
    as (name_obj & rect & info & metrics & type_obj & _ & _ & Hrect & Hinfo
        & Hmetrics & _ & _ & Hwidget).
  rewrite lookup_singleton_eq in Hmetrics. injection Hmetrics as <-.
  pose proof (record_metrics_elem _ ∅ _ _ (enumerate1_NoDup _) Hip) as Hlook.
  apply enumerate1_elem in Hip as (k & -> & Hk).
  exists k, p, a, rect, info. rewrite Hpm, Hwidget.
  do 5 (split; [done|]). split; [done|].
  unfold make_widget. cbn.
  destruct (opt_truthy rect_truthy rect); cbn; [|done].
  do 3 (split; [done|]). split; [lia|]. split; [done|].
  split; [|done]. unfold flutter_y. by destruct (pt_y (top_left info)).
Qed.

(** C10. Whether a rect is present is judged by its truthiness, not by
    its validity.  When the effective rect of an annotation is a
    non-empty array whose length is not four, the widget appended for it
    has the all-null RectInfo as boundingBox, the point with x and y null
    as position and the size with width and height null, none of them
    null itself; when the page height is known, its flutterConfig is
    present and its x, y, width and height are null. *)
Theorem wrong_arity_widget (field_definitions : gmap string (PdfDict num))
    page_index st st' a name_obj field_name coords :
  process_annotation field_definitions page_index st (AnnotDict a) = Ok st' →
  name_obj_of a = Ok name_obj →
  _normalise_name name_obj = Some field_name →
  rect_of_annotation a = Ok (Some (Array coords)) →
  coords ≠ [] →
  length coords ≠ 4 →
  ∃ w,
    widgets_by_field st' !! field_name =
      Some (default [] (widgets_by_field st !! field_name) ++ [w]) ∧
    w_boundingBox w = Some null_rect_info ∧
    w_position w = Some null_point ∧
    w_size w = Some {| sz_width := None; sz_height := None |} ∧
    (∀ metrics,
        page_metrics st !! page_index = Some metrics →
        is_Some (sz_height metrics) →
        ∃ fc, w_flutterConfig w = Some fc ∧
              fc_x fc = None ∧ fc_y fc = None ∧
              fc_width fc = None ∧ fc_height fc = None).
Proof.
  intros Hstep Hname Hnorm Hrect Hne Hlen.
  destruct (process_annotation_named _ _ _ _ _ _ _ Hstep Hname Hnorm)
    as (rect & info & metrics & type_obj & Hrect' & Hinfo & Hmetrics & _ & ->).
  rewrite Hrect in Hrect'. injection Hrect' as <-.
  rewrite resolve_rect_wrong_arity in Hinfo by done. injection Hinfo as <-.
  eexists. cbn. unfold append_widget. rewrite lookup_insert_eq.
  split; [done|]. unfold make_widget.
  assert (opt_truthy rect_truthy (Some (Array coords)) = true) as ->
    by by destruct coords.
  cbn. do 3 (split; [done|]).
  intros metrics' Hmetrics' [height Hheight].
  rewrite Hmetrics in Hmetrics'. injection Hmetrics' as <-.
  rewrite Hheight. cbn. by eexists.
Qed.

(** C6, amended.  Every widget processed for a field name assigns the
    type of that name again, whatever was stored before: the field-type
    code of the parent when the widget has one and of the widget itself
    otherwise, or else the code of the catalog entry, normalised.  A
    widget whose sources are all absent therefore stores null. *)
Theorem field_type_reassigned (field_definitions : gmap string (PdfDict num))
    page_index st st' a name_obj field_name :
  process_annotation field_definitions page_index st (AnnotDict a) = Ok st' →
  name_obj_of a = Ok name_obj →
  _normalise_name name_obj = Some field_name →
  let own_type := match get_Parent a with
                  | Some (ParentDict d) => get_FT d
                  | _ => get_FT (annot a)
                  end in
  let catalog_type := field_definitions !! field_name ≫= get_FT in
  field_types st' !! field_name =
    Some (_normalise_name
            (if opt_truthy str_truthy own_type then own_type else catalog_type)) ∧
  (own_type = None → catalog_type = None →
   field_types st' !! field_name = Some None).
Proof.
  intros Hstep Hname Hnorm own_type catalog_type.
  destruct (process_annotation_named _ _ _ _ _ _ _ Hstep Hname Hnorm)
    as (rect & info & metrics & type_obj & _ & _ & _ & Htype & ->).
  cbn. rewrite lookup_insert_eq.
  apply type_obj_of_ok in Htype. fold own_type catalog_type in Htype.
  split; [by rewrite Htype|].
  intros Hown Hcat. by rewrite Htype, Hown, Hcat.
Qed.

(** The type kept for a name at the end of a run is the one assigned by
    the last widget of that name. *)
Lemma field_type_last_assigned reader st field_name :
  resolve_widgets (catalog_of reader) (pages reader) = Ok st →
  ∃ entries,
    entries_of_pages (catalog_of reader) (enumerate1 (pages reader)) = Ok entries ∧
    field_type_of (field_types st) field_name =
      last (types_named field_name entries) ≫= id.
Proof.
  intros Hrun.
  destruct (resolve_widgets_ok _ _ _ Hrun) as (entries & Hes & _ & _ & _ & Hty).
  by exists entries.
Qed.

(** A name without a widget has no type in its record, whatever the
    catalog says. *)
Lemma catalog_only_type_null pdf_path reader st (r : FieldRecord num) :
  resolve_widgets (catalog_of reader) (pages reader) = Ok st →
  r ∈ (get_form_field_positions pdf_path (Opened reader)).2 →
  name r ∉ dom (widgets_by_field st) →
  field_type r = None.
Proof.
  intros Hrun Hr Hnone.
  destruct (emitted_record _ _ _ _ Hrun Hr) as [-> _]. cbn in *.
  destruct (resolve_widgets_ok _ _ _ Hrun) as (entries & _ & _ & _ & Hdom & Hty).
  rewrite Hty. rewrite Hdom in Hnone.
  assert (widgets_named (name r) entries = []) as Hnil
    by by destruct (widgets_named (name r) entries); [|exfalso; apply Hnone].
  unfold widgets_named in Hnil. apply fmap_nil_inv in Hnil.
  unfold types_named. by rewrite Hnil.
Qed.

(** X19. When the widgets of a name carry no type of their own and the catalog
    has a code for the name, the record shows the code of the catalog. *)
Lemma catalog_type_for_untyped_widgets pdf_path reader st (r : FieldRecord num) code :
  resolve_widgets (catalog_of reader) (pages reader) = Ok st →
  r ∈ (get_form_field_positions pdf_path (Opened reader)).2 →
  name r ∈ dom (widgets_by_field st) →
  catalog_of reader !! name r ≫= get_FT = Some code →
  (∀ page a name_obj,
      page ∈ pages reader → AnnotDict a ∈ Annots page →
      name_obj_of a = Ok name_obj →
      _normalise_name name_obj = Some (name r) →
      match get_Parent a with
      | Some (ParentDict d) => get_FT d
      | _ => get_FT (annot a)
      end = None) →
  field_type r = map_field_type (_normalise_name (Some code)).
Proof.
  intros Hrun Hr Hdom Hcat Hown.
  destruct (emitted_record _ _ _ _ Hrun Hr) as [Hrec _].
  destruct (resolve_widgets_ok _ _ _ Hrun) as (entries & Hes & _ & _ & Hkeys & Hty).
  rewrite Hrec. cbn. rewrite Hty. f_equal.
  apply Hkeys in Hdom.
  destruct (last (types_named (name r) entries)) as [assigned|] eqn:Hlast.
  - apply last_Some_elem_of in Hlast. unfold types_named in Hlast.
    apply list_elem_of_fmap in Hlast as (e & -> & He).
    apply list_elem_of_filter in He as [Hname He].
    destruct (entries_of_pages_elem _ _ _ _ Hes He) as (i & p & ref & Hip & Href & Hres).
    destruct ref as [a|]; [|done].
    apply resolve_annotation_some in Hres
      as (name_obj & ? & ? & ? & type_obj & Hobj & Hnorm & _ & _ & _ & Htype & -> & _).
    apply type_obj_of_ok in Htype. cbn in Htype.
    apply enumerate1_elem in Hip as (k & _ & Hk).
    rewrite Hname in Hnorm.
    rewrite (Hown p a name_obj) in Htype by eauto using list_elem_of_lookup_2.
    cbn in Htype. rewrite Hname, Hcat in Htype. by rewrite Htype.
  - exfalso. apply Hdom. apply last_None in Hlast.
    unfold types_named in Hlast. apply fmap_nil_inv in Hlast.
    unfold widgets_named. by rewrite Hlast.
Qed.

(** An annotation is skipped exactly when the name object is [None]:
    neither the annotation nor its parent has a truthy [/T], and the
    parent has no [/T] at all. *)
Lemma skipped_iff_no_name_object (field_definitions : gmap string (PdfDict num))
    page_index st a :
  process_annotation field_definitions page_index st (AnnotDict a) = Ok st
  ∧ resolve_annotation field_definitions page_index (page_metrics st) (AnnotDict a)
    = Ok None ↔
  name_obj_of a = Ok None.
Proof.
  rewrite resolve_annotation_none. split; [by intros [_ ?]|].
  intros Hname. split; [|done].
  rewrite process_annotation_cases.
  by rewrite (proj2 (resolve_annotation_none _ _ _ _) Hname).
Qed.

End Claims.

(** * The model run on concrete documents *)

(** The end-to-end scenario: a text field "Name" at [100 700 300 720] on a
    page with media box [0 0 612 792]. *)
Example name_field_record :
  (get_form_field_positions "form.pdf" (Opened name_field_pdf)).2 =
  [{| name := "Name"; field_type := Some "text"; page := Some 1;
      page_size := Some {| sz_width := Some (pts 612); sz_height := Some (pts 792) |};
      bounding_box :=
        Some {| top_left := {| pt_x := Some (pts 100); pt_y := Some (pts 720) |};
                top_right := {| pt_x := Some (pts 300); pt_y := Some (pts 720) |};
                bottom_left := {| pt_x := Some (pts 100); pt_y := Some (pts 700) |};
                bottom_right := {| pt_x := Some (pts 300); pt_y := Some (pts 700) |};
                ri_width := Some (pts 200); ri_height := Some (pts 20) |};
      position := Some {| pt_x := Some (pts 100); pt_y := Some (pts 700) |};
      size_ := Some {| sz_width := Some (pts 200); sz_height := Some (pts 20) |} |}].
Proof. vm_compute. reflexivity. Qed.

Example name_field_flutter_y :
  (λ w, fc_y <$> w_flutterConfig w) <$>
    default [] (widgets_by_field (final_state name_field_pdf) !! "Name") =
  [Some (Some (pts 72))].
Proof. vm_compute. reflexivity. Qed.

(** [round(1/3, 3) == 0.333], [round(2/3, 3) == 0.667], [round(72.0, 3) ==
    72.0]; the double 0.0005 is above the tie and rounds to 0.001, the
    double 2.6755 is below the tie and rounds to 2.675; the sign of a
    negative number that rounds to zero is kept. *)
Example round3_examples :
  round3 (ratio 1 3) = ratio 333 1000 ∧ round3 (ratio 2 3) = ratio 667 1000 ∧
  round3 (pts 72) = pts 72 ∧
  round3 (ratio 5 10000) = ratio 1 1000 ∧
  round3 (ratio 26755 10000) = ratio 2675 1000 ∧
  round3 (ratio (-1) 10000) = PrimFloat.neg_zero.
Proof. vm_compute. done. Qed.

(** ** Rect resolution *)



(** ** Displayed types *)

(** C9 at the unknown code Foo and at the record of the radio group. *)
Lemma displayed_type_lookup_witness :
  map_field_type (Some "Foo") = Some "Foo" ∧
  field_type (make_record (final_state radio_pdf) "Choice") =
  map_field_type (field_type_of (field_types (final_state radio_pdf)) "Choice").
Proof.
  destruct (displayed_type_lookup (num := float))
    as (_ & _ & _ & _ & _ & Hother & _ & Hrecord).
  split.
  - apply Hother. vm_compute. reflexivity.
  - apply (Hrecord "form.pdf" radio_pdf).
    + vm_compute. reflexivity.
    + vm_compute. left.
Defined.

(** ** Names of the returned records *)

(** C4 as stated fails on a document with a catalog entry "A" and no
    pages: "A" is a key of the catalog, the returned list is empty and so
    has no record for it. *)
Lemma no_pages_no_records :
  "A" ∈ dom (catalog_of no_pages_pdf) ∧
  (get_form_field_positions "form.pdf" (Opened no_pages_pdf)).2 = [] ∧
  ¬ ∃ r, r ∈ (get_form_field_positions "form.pdf" (Opened no_pages_pdf)).2 ∧
         name r = "A".
Proof.
  split; [|split].
  - apply elem_of_dom. vm_compute. by eexists.
  - reflexivity.
  - intros (r & Hr & _). by apply elem_of_nil in Hr.
Qed.

(** C4, amended, at the radio group document. *)
Lemma records_sorted_unique_witness :
  let names := name <$> (get_form_field_positions "form.pdf" (Opened radio_pdf)).2 in
  StronglySorted str_le names ∧
  NoDup names ∧
  ∀ field_name,
    field_name ∈ names ↔
    field_name ∈ dom (catalog_of radio_pdf) ∪
                 dom (widgets_by_field (final_state radio_pdf)).
Proof.
  apply (records_sorted_unique "form.pdf" radio_pdf (final_state radio_pdf)).
  - vm_compute. discriminate.
  - vm_compute. reflexivity.
Defined.

(** ** Failures *)

(** C5 at a document whose second annotation is not a dictionary and at a
    document without pages. *)
Lemma failures_absorbed_witness :
  get_form_field_positions "form.pdf" (Opened broken_pdf) =
    ([PrintUnexpected AttributeError], []) ∧
  get_form_field_positions "form.pdf" (Opened no_pages_pdf) = ([PrintNoPages], []).
Proof.
  destruct (failures_absorbed (num := float)) as (_ & Hfail & Hempty).
  split.
  - apply Hfail; [vm_compute; reflexivity | discriminate].
  - apply Hempty. reflexivity.
Defined.

(** The failure of [broken_pdf] comes after a widget was collected. *)
Example broken_pdf_partial_progress :
  (foldM (process_annotation (catalog_of broken_pdf) 1) on_first_page
     [plain_widget (Some "A") (Some (rect_of 10 20 110 40)) (Some "/Tx")]
     ≫= λ st, Ok (length (default [] (widgets_by_field st !! "A")))) = Ok 1 ∧
  resolve_widgets (catalog_of broken_pdf) (pages broken_pdf) = Raise AttributeError ∧
  (get_form_field_positions "form.pdf" (Opened broken_pdf)).2 = [].
Proof. vm_compute. done. Qed.

(** ** The representative widget *)

(** C3 at the record of the radio group. *)
Lemma representative_widget_witness :
  let r := make_record (final_state radio_pdf) "Choice" in
  ∃ entries,
    entries_of_pages (catalog_of radio_pdf) (enumerate1 (pages radio_pdf)) =
      Ok entries ∧
    default [] (widgets_by_field (final_state radio_pdf) !! name r) =
      widgets_named (name r) entries ∧
    match widgets_named (name r) entries with
    | first :: _ =>
        page r = w_page first ∧
        page_size r =
          _round_size (metrics_of (page_metrics (final_state radio_pdf)) (w_page first)) ∧
        bounding_box r = _round_box_dict (w_boundingBox first) ∧
        position r = _round_point (w_position first) ∧
        size_ r = _round_size (w_size first)
    | [] =>
        page r = None ∧ page_size r = None ∧ bounding_box r = None ∧
        position r = None ∧ size_ r = None
    end.
Proof.
  apply (representative_widget "form.pdf" radio_pdf).
  - vm_compute. reflexivity.
  - vm_compute. left.
Defined.

(** The radio group has three widgets and one record, with the geometry
    of the first option. *)
Example radio_group_first_option :
  length (default [] (widgets_by_field (final_state radio_pdf) !! "Choice")) = 3 ∧
  (λ r, (name r, page r, position r)) <$>
    (get_form_field_positions "form.pdf" (Opened radio_pdf)).2 =
  [("Choice", Some 1, Some {| pt_x := Some (pts 50); pt_y := Some (pts 600) |})].
Proof. vm_compute. done. Qed.

(** ** flutterConfig *)

(** C2 at the widget of the text field "Name". *)
Lemma flutter_config_of_widget_witness :
  ∃ w, default [] (widgets_by_field (final_state name_field_pdf) !! "Name") = [w] ∧
  ∃ k page a rect rect_info,
    pages name_field_pdf !! k = Some page ∧
    AnnotDict a ∈ Annots page ∧
    rect_of_annotation a = Ok rect ∧
    _resolve_rect rect = Ok rect_info ∧
    w_page w = Some (S k) ∧
    page_metrics (final_state name_field_pdf) !! S k = Some (page_size_of page) ∧
    let page_height := fsub (mediabox_top page) (mediabox_bottom page) in
    match w_flutterConfig w with
    | Some fc =>
        opt_truthy rect_truthy rect = true ∧
        sz_height (page_size_of page) = Some page_height ∧
        w_boundingBox w = Some rect_info ∧
        pageIndex fc = k ∧
        fc_x fc = _format_number (pt_x (bottom_left rect_info)) ∧
        fc_y fc = match pt_y (top_left rect_info) with
                  | Some top => Some (round3 (fsub page_height top))
                  | None => None
                  end ∧
        fc_width fc = _format_number (ri_width rect_info) ∧
        fc_height fc = _format_number (ri_height rect_info)
    | None => opt_truthy rect_truthy rect = false
    end.
Proof.
  eexists. split; [vm_compute; reflexivity|].
  apply (flutter_config_of_widget name_field_pdf (final_state name_field_pdf) "Name").
  - vm_compute. reflexivity.
  - vm_compute. left.
Defined.

(** ** Rects of wrong arity *)

(** C10 at a widget whose rect has three entries, on the first page. *)
Lemma wrong_arity_widget_witness :
  ∃ w,
    widgets_by_field
      (apply_entry on_first_page
         {| e_name := "A"; e_type := Some "Tx";
            e_widget := make_widget 1 (Some (pts 792))
                          (get_Rect (annot short_rect_widget)) null_rect_info |})
      !! "A" =
      Some (default [] (widgets_by_field on_first_page !! "A") ++ [w]) ∧
    w_boundingBox w = Some null_rect_info ∧
    w_position w = Some null_point ∧
    w_size w = Some {| sz_width := None; sz_height := None |} ∧
    (∀ metrics,
        page_metrics on_first_page !! 1 = Some metrics →
        is_Some (sz_height metrics) →
        ∃ fc, w_flutterConfig w = Some fc ∧
              fc_x fc = None ∧ fc_y fc = None ∧
              fc_width fc = None ∧ fc_height fc = None).
Proof.
  apply (wrong_arity_widget ∅ 1 on_first_page _ short_rect_widget (Some "A") "A"
           [Numeric (pts 1); Numeric (pts 2); Numeric (pts 3)]).
  - vm_compute. reflexivity.
  - reflexivity.
  - reflexivity.
  - reflexivity.
  - discriminate.
  - simpl. lia.
Defined.

(** ** Field types *)

(** C6 as stated fails on two widgets of "A": the first carries the type
    Tx, the second has no type of its own, no parent and no catalog entry.
    After the first widget the type of "A" is Tx; after the second it is
    null, and so is the type of the record. *)
Lemma later_widget_resets_type :
  (foldM (process_annotation ∅ 1) on_first_page [AnnotDict typed_widget]
     ≫= λ st, Ok (field_types st !! "A")) = Ok (Some (Some "Tx")) ∧
  type_obj_of ∅ "A" untyped_widget = Ok None ∧
  (foldM (process_annotation ∅ 1) on_first_page
     [AnnotDict typed_widget; AnnotDict untyped_widget]
     ≫= λ st, Ok (field_types st !! "A")) = Ok (Some None) ∧
  field_type <$> (get_form_field_positions "form.pdf" (Opened typed_once_pdf)).2 =
    [Some "text"] ∧
  field_type <$> (get_form_field_positions "form.pdf" (Opened typed_then_untyped_pdf)).2 =
    [None].
Proof. vm_compute. done. Qed.

(** C6, amended, at the second of these widgets. *)
Lemma field_type_reassigned_witness :
  let st' := apply_entry (apply_entry on_first_page
                            {| e_name := "A"; e_type := Some "Tx";
                               e_widget := synthetic_widget |})
               {| e_name := "A"; e_type := None;
                  e_widget := make_widget 1 (Some (pts 792))
                                (get_Rect (annot untyped_widget))
                                {| top_left := {| pt_x := Some (pts 10); pt_y := Some (pts 70) |};
                                   top_right := {| pt_x := Some (pts 110); pt_y := Some (pts 70) |};
                                   bottom_left := {| pt_x := Some (pts 10); pt_y := Some (pts 50) |};
                                   bottom_right := {| pt_x := Some (pts 110); pt_y := Some (pts 50) |};
                                   ri_width := Some (pts 100);
                                   ri_height := Some (pts 20) |} |} in
  field_types st' !! "A" = Some None.
Proof.
  apply (field_type_reassigned ∅ 1
           (apply_entry on_first_page
              {| e_name := "A"; e_type := Some "Tx"; e_widget := synthetic_widget |})
           _ untyped_widget (Some "A") "A").
  - vm_compute. reflexivity.
  - reflexivity.
  - reflexivity.
  - reflexivity.
  - reflexivity.
Defined.

(** ** Annotations without a name *)

(** C7 on the code: an annotation named "/" has the empty normalised name
    and is not skipped.  Its widget is stored under the empty name, and a
    record with the empty name is returned.  The same happens to an
    annotation without [/T] whose parent has the empty string as [/T]. *)
Lemma empty_name_not_skipped :
  name_obj_of slash_named = Ok (Some "/") ∧
  _normalise_name (Some "/") = Some "" ∧
  length (default [] (widgets_by_field (final_state slash_name_pdf) !! "")) = 1 ∧
  name <$> (get_form_field_positions "form.pdf" (Opened slash_name_pdf)).2 = [""] ∧
  name_obj_of unnamed_child = Ok (Some "") ∧
  name <$> (get_form_field_positions "form.pdf" (Opened unnamed_child_pdf)).2 = [""].
Proof. vm_compute. done. Qed.

(** The catalog builder drops such names. *)
Example catalog_drops_empty_names :
  build_field_definitions [("/", text_field); ("", text_field)] =
  (∅ : gmap string (PdfDict float)).
Proof. vm_compute. reflexivity. Qed.

(** ** Fields of the catalog without a widget *)

(** C8 on the code: the field "A" is in the catalog with the code Tx and
    has no annotation; its record has no type. *)
Lemma catalog_only_type_lost :
  catalog_of catalog_only_pdf !! "A" ≫= get_FT = Some "/Tx" ∧
  (get_form_field_positions "form.pdf" (Opened catalog_only_pdf)).2 =
  [{| name := "A"; field_type := None; page := None; page_size := None;
      bounding_box := None; position := None; size_ := None |}].
Proof. vm_compute. done. Qed.

(** * Properties of the rest of the program *)

(** ** Names and the catalog *)

Lemma str_truthy_nonempty (s : string) : str_truthy s = true ↔ s ≠ "".
Proof. by destruct s. Qed.

(** X1. Normalisation removes one leading slash and nothing else: the result
    is the text without its first character when that is a slash, and the
    text itself when it starts with no slash. *)
Theorem normalise_name_strips_one_slash (text rest : string) :
  _normalise_name (Some text) = Some rest ↔
  text = String "/" rest ∨ (text = rest ∧ ∀ tail, text ≠ String "/" tail).
Proof.
  unfold _normalise_name. destruct text as [|c tail].
  - split; [intros [= <-]; by right|]. by intros [?|[-> _]].
  - destruct (Ascii.eqb_spec c "/") as [-> | Hc].
    + split; [intros [= <-]; by left|].
      intros [[= ->]|[_ Hno]]; [done|]. by destruct (Hno tail).
    + assert (match c with
              | "/"%char => Some tail
              | _ => Some (String c tail)
              end = Some (String c tail)) as ->
        by (destruct c as [[] [] [] [] [] [] [] []]; done).
      split.
      * intros [= <-]. right. split; [done|]. intros t [= ? _]. done.
      * intros [[= ? _]|[-> _]]; done.
Qed.

Section Catalog.
Context {num : Type} `{PyFloat num}.
Implicit Types (raw_fields : list (string * PdfDict num)).

Lemma add_definition_lookup (acc : gmap string (PdfDict num)) item field_name :
  add_definition acc item !! field_name =
  if decide (field_name ≠ "" ∧ _normalise_name (Some item.1) = Some field_name)
  then Some item.2 else acc !! field_name.
Proof.
  unfold add_definition.
  destruct (normalise_name_is_some item.1) as [key Hkey]. rewrite Hkey.
  destruct (str_truthy key) eqn:Htruthy.
  - apply str_truthy_nonempty in Htruthy.
    destruct (decide (key = field_name)) as [->|Hne].
    + rewrite lookup_insert_eq. by rewrite decide_True.
    + rewrite lookup_insert_ne by done. rewrite decide_False; [done|].
      intros [_ [= ?]]. done.
  - rewrite decide_False; [done|]. intros [Hne [= ->]].
    apply str_truthy_nonempty in Hne. congruence.
Qed.

Lemma catalog_fold_lookup raw_fields : ∀ (acc : gmap string (PdfDict num)) field_name,
  foldl add_definition acc raw_fields !! field_name =
  if decide (field_name = "") then acc !! field_name
  else match last (raw_items_of field_name raw_fields) with
       | Some item => Some item.2
       | None => acc !! field_name
       end.
Proof.
  induction raw_fields as [|item rest IH]; intros acc n.
  - cbn. by case_decide.
  - cbn [foldl]. rewrite IH. case_decide as Hn.
    + rewrite add_definition_lookup. rewrite decide_False; [done|]. by intros [? _].
    + unfold raw_items_of. rewrite filter_cons.
      fold (raw_items_of n rest). rewrite add_definition_lookup.
      destruct (decide (_normalise_name (Some item.1) = Some n)) as [Hitem|Hitem].
      * rewrite last_cons. rewrite decide_True by done.
        by destruct (last (raw_items_of n rest)).
      * rewrite decide_False; [done|]. by intros [_ ?].
Qed.

(** X2. The catalog maps a field name to the data of the last raw name, in
    dictionary order, that normalises to it: when two raw names collide,
    as "/A" and "A" do, the later one wins.  The empty name is no key. *)
Theorem catalog_lookup raw_fields field_name :
  build_field_definitions raw_fields !! field_name =
  if decide (field_name = "") then None
  else snd <$> last (raw_items_of field_name raw_fields).
Proof.
  unfold build_field_definitions. rewrite catalog_fold_lookup.
  case_decide; [done|]. by destruct (last _).
Qed.

(** X3. The keys of the catalog are the non-empty normalised raw names:
    nothing is added and only the raw names "" and "/" are left out. *)
Theorem catalog_keys raw_fields field_name :
  field_name ∈ dom (build_field_definitions raw_fields) ↔
  field_name ≠ "" ∧
  ∃ raw_name, raw_name ∈ raw_fields.*1 ∧
              _normalise_name (Some raw_name) = Some field_name.
Proof.
  unfold build_field_definitions. rewrite elem_of_dom, catalog_fold_lookup.
  rewrite lookup_empty. case_decide as Hn.
  - split; [by intros [? ?]|by intros [? _]].
  - assert (is_Some (match last (raw_items_of field_name raw_fields) with
                     | Some item => Some item.2
                     | None => None
                     end) ↔ raw_items_of field_name raw_fields ≠ []) as ->.
    { destruct (last (raw_items_of field_name raw_fields)) as [item|] eqn:Hlast.
      - split; [|by eexists]. intros _ Hnil. by rewrite Hnil in Hlast.
      - apply last_None in Hlast. rewrite Hlast. split; [by intros [? ?]|done]. }
    split.
    + intros Hne. split; [done|].
      destruct (raw_items_of field_name raw_fields) as [|item items] eqn:Hitems;
        [done|].
      assert (item ∈ raw_items_of field_name raw_fields) as Hin
        by (rewrite Hitems; left).
      apply list_elem_of_filter in Hin as [Hitem Hin].
      exists item.1. split; [|done]. apply list_elem_of_fmap. by exists item.
    + intros [_ (raw_name & Hin & Hnorm)].
      apply list_elem_of_fmap in Hin as (item & -> & Hin).
      intros Hnil.
      assert (item ∈ raw_items_of field_name raw_fields) as Hitem
        by by apply list_elem_of_filter.
      rewrite Hnil in Hitem. by apply elem_of_nil in Hitem.
Qed.

End Catalog.

Section RectAndWidget.
Context {num : Type} `{PyFloat num}.
Implicit Types (st : State num) (a : Annotation num) (w : Widget num).
Implicit Types (field_definitions : gmap string (PdfDict num)).

(** ** Rect resolution *)

Lemma resolved_rect_info (rect : option (RectObject num)) rect_info :
  _resolve_rect rect = Ok rect_info → rect_info_consistent rect_info.
Proof.
  intros Hres.
  destruct rect as [[coords|size|]|]; [| |done|by injection Hres as <-].
  - destruct coords as [|c0 [|c1 [|c2 [|c3 [|c4 rest]]]]];
      try (cbn in Hres; by injection Hres as <-).
    destruct c0 as [v0| |], c1 as [v1| |], c2 as [v2| |], c3 as [v3| |];
      cbn in Hres; try done; by injection Hres as <-.
  - destruct size as [|[|[|[|[|size]]]]]; cbn in Hres; try done;
      by injection Hres as <-.
Qed.

(** X4. Whatever the rect, the RectInfo resolved from it describes one
    rectangle: the corners share their coordinates, and width and height
    are the differences of the sides, null as soon as a side is null and
    never a default number. *)
Theorem resolve_rect_consistent (rect : option (RectObject num)) rect_info :
  _resolve_rect rect = Ok rect_info →
  rect_info_consistent rect_info ∧
  (ri_width rect_info = None ↔
   pt_x (top_left rect_info) = None ∨ pt_x (top_right rect_info) = None) ∧
  (ri_height rect_info = None ↔
   pt_y (top_left rect_info) = None ∨ pt_y (bottom_left rect_info) = None).
Proof.
  intros Hres. split; [by eapply resolved_rect_info|].
  destruct (resolved_rect_info _ _ Hres) as (_ & _ & _ & _ & -> & ->).
  unfold sub_opt.
  destruct (pt_x (top_right rect_info)), (pt_x (top_left rect_info)),
    (pt_y (top_left rect_info)), (pt_y (bottom_left rect_info)); naive_solver.
Qed.



(** ** [_round_box] *)

(** X6. [_round_box] returns [None] for [None] and for the empty list, and it
    never returns an empty list; otherwise the result has the length of
    its argument and holds the rounded entries, nulls staying null. *)
Theorem round_box_shape (box : option (list (option num))) :
  (_round_box box = None ↔ default [] box = []) ∧
  ∀ rounded_box,
    _round_box box = Some rounded_box →
    rounded_box ≠ [] ∧
    length rounded_box = length (default [] box) ∧
    ∀ i, rounded_box !! i = _format_number <$> default [] box !! i.
Proof.
  destruct box as [[|value values]|]; cbn; (split; [done|]); try done.
  intros rounded_box [= <-]. split; [done|]. split.
  - cbn. by rewrite length_fmap.
  - intros i. exact (list_lookup_fmap _format_number (value :: values) i).
Qed.

(** ** Widgets without a rect *)

(** X7. A named annotation without an effective rect (none, or an empty
    array) still gets a widget: it carries the page, and its bounding box,
    position, size and flutterConfig are null. *)
Theorem widget_without_rect field_definitions page_index st st' a name_obj
    field_name rect :
  process_annotation field_definitions page_index st (AnnotDict a) = Ok st' →
  name_obj_of a = Ok name_obj →
  _normalise_name name_obj = Some field_name →
  rect_of_annotation a = Ok rect →
  opt_truthy rect_truthy rect = false →
  widgets_by_field st' !! field_name =
    Some (default [] (widgets_by_field st !! field_name) ++
          [{| w_page := Some page_index; w_boundingBox := None;
              w_position := None; w_size := None; w_flutterConfig := None |}]).
Proof.
  intros Hstep Hname Hnorm Hrect Hfalsy.
  destruct (process_annotation_named _ _ _ _ _ _ _ Hstep Hname Hnorm)
    as (rect' & info & metrics & type_obj & Hrect' & Hinfo & Hmetrics & _ & ->).
  rewrite Hrect in Hrect'. injection Hrect' as <-.
  cbn. unfold append_widget. rewrite lookup_insert_eq.
  unfold make_widget. by rewrite Hfalsy.
Qed.

End RectAndWidget.

Section Failures.
Context {num : Type} `{PyFloat num}.
Implicit Types (st : State num) (a : Annotation num) (ref : AnnotationObject num).
Implicit Types (field_definitions : gmap string (PdfDict num)).
Implicit Types (reader : Reader num).

(** ** What can fail in the loop, and what cannot *)

#[local] Arguments _resolve_rect : simpl never.

Local Ltac unfold_annotation :=
  unfold resolve_annotation, name_obj_of, rect_of_annotation, type_obj_of,
    py_or, parent_get, parent_or_annotation_get, subscript, mbind, result_bind
    in *.

Lemma resolve_rect_raise_kind (rect : option (RectObject num)) error :
  _resolve_rect rect = Raise error → loop_error error.
Proof.
  intros Hraise. unfold loop_error.
  destruct (resolve_rect_cases rect)
    as [[info Hr]|[[_ Hr]|[[_ Hr]|(c0 & c1 & c2 & c3 & _ & _ & Hr)]]];
    rewrite Hr in Hraise; [done|..]; injection Hraise as <-; auto 6.
Qed.

Lemma resolve_rect_well_formed (rect : option (RectObject num)) :
  rect_well_formed rect = true → ∃ rect_info, _resolve_rect rect = Ok rect_info.
Proof.
  intros Hsized.
  destruct (resolve_rect_cases rect)
    as [Hok|[[-> _]|[[-> _]|(c0 & c1 & c2 & c3 & -> & Hin & _)]]]; [done..|].
  exfalso. cbn in Hsized. rewrite !elem_of_cons, elem_of_nil in Hin.
  destruct c0, c1, c2, c3; try done; by destruct Hin as [?|[?|[?|[?|[]]]]].
Qed.

Lemma resolve_annotation_raise_kind field_definitions page_index pm ref error :
  is_Some (pm !! page_index) →
  resolve_annotation field_definitions page_index pm ref = Raise error →
  loop_error error.
Proof.
  intros [metrics Hmetrics] Hraise.
  destruct ref as [a|]; [|injection Hraise as <-; by left].
  unfold_annotation. rewrite Hmetrics in Hraise.
  destruct a as [[own_T own_Rect own_FT] parent]. cbn in Hraise.
  destruct parent as [[d|]|];
    repeat (case_match; simplify_eq/=);
    try (by left);
    match goal with
    | Hrect : _resolve_rect _ = Raise _ |- _ =>
        by apply resolve_rect_raise_kind in Hrect
    end.
Qed.

Lemma resolve_annotation_well_formed field_definitions page_index pm ref :
  is_Some (pm !! page_index) →
  annotation_well_formed ref = true →
  ∃ entry, resolve_annotation field_definitions page_index pm ref = Ok entry.
Proof.
  intros [metrics Hmetrics] Hwf. destruct ref as [a|]; [|done].
  destruct (resolve_annotation field_definitions page_index pm (AnnotDict a))
    as [entry|error] eqn:Hres; [by eexists|exfalso].
  unfold_annotation. rewrite Hmetrics in Hres.
  destruct a as [[own_T own_Rect own_FT] parent]. cbn in *.
  apply andb_true_iff in Hwf as [Hown Hparent].
  destruct parent as [[[parent_T parent_Rect parent_FT]|]|]; [|done|]; cbn in *;
    repeat (case_match; simplify_eq/=);
    match goal with
    | Hrect : _resolve_rect ?r = Raise _ |- _ =>
        destruct (resolve_rect_well_formed r) as [? Hr];
        [done|rewrite Hr in Hrect; simplify_eq]
    end.
Qed.

(** An annotation that is not a dictionary, or whose parent is truthy and
    not a dictionary, cannot be processed. *)
Lemma resolve_annotation_fatal field_definitions page_index pm ref :
  is_Some (pm !! page_index) →
  (ref = AnnotOther ∨ ∃ a, ref = AnnotDict a ∧ get_Parent a = Some ParentOther) →
  ∃ error, resolve_annotation field_definitions page_index pm ref = Raise error.
Proof.
  intros [metrics Hmetrics] [-> | (a & -> & Hparent)]; [by eexists|].
  destruct (resolve_annotation field_definitions page_index pm (AnnotDict a))
    as [entry|error] eqn:Hres; [exfalso|by eexists].
  unfold_annotation. rewrite Hmetrics in Hres.
  destruct a as [[own_T own_Rect own_FT] parent]. cbn in *. subst parent.
  repeat (case_match; simplify_eq/=).
  match goal with
  | Hnone : _normalise_name ?name_obj = None |- _ =>
      destruct name_obj as [text|]; [|done];
      destruct (normalise_name_is_some text) as [? Hsome]; congruence
  end.
Qed.

Lemma entries_of_annots_raise_kind field_definitions page_index pm annotations error :
  is_Some (pm !! page_index) →
  entries_of_annots field_definitions page_index pm annotations = Raise error →
  loop_error error.
Proof.
  intros Hpm. induction annotations as [|ref refs IH]; [done|]. cbn.
  destruct (resolve_annotation _ _ _ ref) as [entry|err] eqn:Href.
  - rewrite bind_Ok. destruct (entries_of_annots _ _ _ refs); [done|].
    rewrite bind_Raise. intros [= <-]. by apply IH.
  - rewrite bind_Raise. intros [= <-]. by eapply resolve_annotation_raise_kind.
Qed.

Lemma entries_of_pages_raise_kind field_definitions
    (indexed_pages : list (nat * Page num)) error :
  entries_of_pages field_definitions indexed_pages = Raise error →
  loop_error error.
Proof.
  induction indexed_pages as [|[i p] l IH]; [done|]. cbn.
  destruct (measure_page_cases p) as [-> | [msg ->]];
    [|rewrite bind_Raise; intros [= <-]; do 4 right; by eexists].
  rewrite bind_Ok.
  destruct (iterate_cases p) as [-> | [_ ->]];
    [|rewrite bind_Raise; intros [= <-]; right; by left].
  rewrite bind_Ok.
  destruct (entries_of_annots _ _ _ (Annots p)) as [es|err] eqn:Hpage.
  - rewrite bind_Ok. destruct (entries_of_pages _ l); [done|].
    rewrite bind_Raise. intros [= <-]. by apply IH.
  - rewrite bind_Raise. intros [= <-].
    apply (entries_of_annots_raise_kind field_definitions i
             {[i := page_size_of p]} (Annots p)); [|done].
    by rewrite lookup_singleton_eq.
Qed.

Lemma loop_error_unexpected error : loop_error error → error ≠ FileNotFoundError.
Proof. by intros [-> | [-> | [-> | [-> | [msg ->]]]]]. Qed.

Lemma entries_of_annots_well_formed field_definitions page_index pm annotations :
  is_Some (pm !! page_index) →
  forallb annotation_well_formed annotations = true →
  ∃ entries, entries_of_annots field_definitions page_index pm annotations = Ok entries.
Proof.
  intros Hpm. induction annotations as [|ref refs IH]; [by eexists|]. cbn.
  intros [Href Hrefs]%andb_true_iff.
  destruct (resolve_annotation_well_formed field_definitions _ _ _ Hpm Href)
    as [entry ->].
  destruct (IH Hrefs) as [entries ->]. by eexists.
Qed.

Lemma entries_of_pages_well_formed field_definitions
    (indexed_pages : list (nat * Page num)) :
  forallb page_well_formed indexed_pages.*2 = true →
  ∃ entries, entries_of_pages field_definitions indexed_pages = Ok entries.
Proof.
  induction indexed_pages as [|[i p] l IH]; [by eexists|].
  intros Hwf. cbn in Hwf. apply andb_true_iff in Hwf as [Hp Hl].
  cbn [entries_of_pages fst snd]. unfold page_well_formed in Hp.
  apply andb_true_iff in Hp as [Hbox%bool_decide_eq_true Hp].
  unfold measure_page. rewrite Hbox, bind_Ok.
  destruct (get_Annots p) as [refs|]; [|done]. cbn [iterate]. rewrite bind_Ok.
  destruct (entries_of_annots_well_formed field_definitions i
              {[i := page_size_of p]} refs) as [es ->];
    [by rewrite lookup_singleton_eq|done|].
  destruct (IH Hl) as [later ->]. by eexists.
Qed.

Lemma entries_of_annots_fatal field_definitions page_index pm annotations ref :
  is_Some (pm !! page_index) →
  ref ∈ annotations →
  (ref = AnnotOther ∨ ∃ a, ref = AnnotDict a ∧ get_Parent a = Some ParentOther) →
  ∃ error,
    entries_of_annots field_definitions page_index pm annotations = Raise error.
Proof.
  intros Hpm Hin Hfatal. induction annotations as [|ref' refs IH].
  - by apply elem_of_nil in Hin.
  - cbn. apply elem_of_cons in Hin as [<- | Hin].
    + destruct (resolve_annotation_fatal field_definitions _ _ _ Hpm Hfatal)
        as [error ->]. by eexists.
    + destruct (resolve_annotation _ _ _ ref') as [entry|err]; [|by eexists].
      rewrite bind_Ok. destruct (IH Hin) as [error ->]. by eexists.
Qed.

Lemma entries_of_pages_fatal field_definitions
    (indexed_pages : list (nat * Page num)) page ref :
  page ∈ indexed_pages.*2 →
  ref ∈ Annots page →
  (ref = AnnotOther ∨ ∃ a, ref = AnnotDict a ∧ get_Parent a = Some ParentOther) →
  ∃ error, entries_of_pages field_definitions indexed_pages = Raise error.
Proof.
  intros Hin Href Hfatal. induction indexed_pages as [|[i p] l IH].
  - by apply elem_of_nil in Hin.
  - cbn in Hin. cbn [entries_of_pages fst snd].
    destruct (measure_page_cases p) as [-> | [msg ->]]; [|by eexists].
    rewrite bind_Ok.
    destruct (iterate_cases p) as [Hp | [_ ->]]; [|by eexists].
    rewrite Hp, bind_Ok.
    apply elem_of_cons in Hin as [<- | Hin].
    + destruct (entries_of_annots_fatal field_definitions i
                  {[i := page_size_of page]} (Annots page) ref) as [error ->];
        [by rewrite lookup_singleton_eq|done|done|by eexists].
    + destruct (entries_of_annots _ _ _ (Annots p)) as [es|err]; [|by eexists].
      rewrite bind_Ok. destruct (IH Hin) as [error ->]. by eexists.
Qed.

Lemma enumerate1_pages {A} (l : list A) : (enumerate1 l).*2 = l.
Proof. unfold enumerate1. apply snd_zip. by rewrite length_seq. Qed.

Lemma unexpected_error_result pdf_path reader error :
  pages reader ≠ [] →
  resolve_widgets (catalog_of reader) (pages reader) = Raise error →
  error ≠ FileNotFoundError →
  get_form_field_positions pdf_path (Opened reader) = ([PrintUnexpected error], []).
Proof.
  intros Hpages Hraise Hother.
  unfold get_form_field_positions, open_and_inspect, inspect.
  destruct (pages reader) as [|p ps] eqn:Ep; [done|].
  rewrite Hraise. cbn. by destruct error.
Qed.

Lemma opened_document_outcomes_aux pdf_path reader :
  (get_form_field_positions pdf_path (Opened reader) = ([PrintNoPages], []) ∨
   ∃ error,
     get_form_field_positions pdf_path (Opened reader) =
       ([PrintUnexpected error], [])) ∨
  ∃ st,
    get_form_field_positions pdf_path (Opened reader) =
      aggregate (catalog_of reader) st.
Proof.
  unfold get_form_field_positions, open_and_inspect, inspect.
  destruct (pages reader) as [|p ps]; [by left; left|].
  destruct (resolve_widgets _ _) as [st|error] eqn:Hrun.
  - right. by exists st.
  - left. right. rewrite resolve_widgets_entries in Hrun.
    destruct (entries_of_pages _ _) as [es|err] eqn:Hes; [done|].
    rewrite bind_Raise in Hrun. injection Hrun as <-.
    exists err.
    by destruct (entries_of_pages_raise_kind _ _ _ Hes)
      as [-> | [-> | [-> | [-> | [msg ->]]]]].
Qed.

(** X9. What becomes of an opened document: without pages it gives the empty
    list and its own message; otherwise either all pages are visited and
    the aggregator runs, or the loop raises, and then the error is the
    one line printed and the list is empty.  What the loop raises is
    never taken for a missing file. *)
Theorem opened_document_outcomes pdf_path reader :
  (pages reader = [] ∧
   get_form_field_positions pdf_path (Opened reader) = ([PrintNoPages], [])) ∨
  (∃ st,
      resolve_widgets (catalog_of reader) (pages reader) = Ok st ∧
      get_form_field_positions pdf_path (Opened reader) =
        aggregate (catalog_of reader) st) ∨
  (∃ error,
      error ≠ FileNotFoundError ∧
      resolve_widgets (catalog_of reader) (pages reader) = Raise error ∧
      get_form_field_positions pdf_path (Opened reader) =
        ([PrintUnexpected error], [])).
Proof.
  destruct (decide (pages reader = [])) as [Hnil|Hpages].
  - left. split; [done|].
    unfold get_form_field_positions, open_and_inspect, inspect. by rewrite Hnil.
  - right.
    destruct (resolve_widgets (catalog_of reader) (pages reader)) as [st|error]
      eqn:Hrun.
    + left. exists st. split; [done|].
      unfold get_form_field_positions, open_and_inspect, inspect.
      destruct (pages reader) as [|p ps] eqn:Ep; [done|]. by rewrite Hrun.
    + right. exists error.
      assert (loop_error error) as Hkind.
      { rewrite resolve_widgets_entries in Hrun.
        destruct (entries_of_pages _ _) as [es|err] eqn:Hes; [done|].
        rewrite bind_Raise in Hrun. injection Hrun as <-.
        by eapply entries_of_pages_raise_kind. }
      apply loop_error_unexpected in Hkind. split; [done|]. split; [done|].
      by apply unexpected_error_result.
Qed.

(** X10. A document is processed without a failure when every page has a
    media box of four numbers that [float()] converts and an [/Annots]
    that is an array (or missing), every annotation is a dictionary,
    every parent is a dictionary, and every [/Rect], of an annotation or
    of a parent, is missing or a sequence that holds no integer too large
    for a float: the loop ends in a state, and the aggregator runs on it. *)
Theorem well_formed_document_succeeds pdf_path reader :
  pages_well_formed (pages reader) = true →
  ∃ st,
    resolve_widgets (catalog_of reader) (pages reader) = Ok st ∧
    (pages reader ≠ [] →
     get_form_field_positions pdf_path (Opened reader) =
       aggregate (catalog_of reader) st).
Proof.
  intros Hwf. rewrite resolve_widgets_entries.
  destruct (entries_of_pages_well_formed (catalog_of reader)
              (enumerate1 (pages reader))) as [entries Hes];
    [by rewrite enumerate1_pages|].
  rewrite Hes, bind_Ok. eexists. split; [done|]. intros Hpages.
  unfold get_form_field_positions, open_and_inspect, inspect.
  destruct (pages reader) as [|p ps] eqn:Ep; [done|].
  by rewrite resolve_widgets_entries, Hes.
Qed.

(** X11. One annotation that is not a dictionary, or whose parent is truthy and
    not a dictionary, anywhere in the document empties the whole result:
    the list is empty and the only line printed is the error. *)
Theorem malformed_annotation_empties_result pdf_path reader page ref :
  page ∈ pages reader →
  ref ∈ Annots page →
  (ref = AnnotOther ∨ ∃ a, ref = AnnotDict a ∧ get_Parent a = Some ParentOther) →
  ∃ error,
    get_form_field_positions pdf_path (Opened reader) =
      ([PrintUnexpected error], []).
Proof.
  intros Hpage Href Hfatal.
  destruct (entries_of_pages_fatal (catalog_of reader) (enumerate1 (pages reader))
              page ref) as [error Hes]; [by rewrite enumerate1_pages|done..|].
  exists error.
  assert (resolve_widgets (catalog_of reader) (pages reader) = Raise error) as Hrun
    by by rewrite resolve_widgets_entries, Hes.
  apply unexpected_error_result; [|done|].
  - intros Hnil. rewrite Hnil in Hpage. by apply elem_of_nil in Hpage.
  - by eapply loop_error_unexpected, entries_of_pages_raise_kind.
Qed.

End Failures.

Section Invariants.
Context {num : Type} `{PyFloat num}.
Implicit Types (st : State num) (a : Annotation num) (w : Widget num).
Implicit Types (e : Entry num) (entries : list (Entry num)).
Implicit Types (field_definitions : gmap string (PdfDict num)).
Implicit Types (reader : Reader num) (r : FieldRecord num).

(** ** Page metrics *)

Lemma zip_seq_lookup {A} (l : list A) : ∀ start k (x : A),
  l !! k = Some x → (start + k, x) ∈ zip (seq start (length l)) l.
Proof.
  induction l as [|y l IH]; intros start k x Hk; [done|].
  destruct k as [|k]; cbn in *.
  - injection Hk as ->. rewrite Nat.add_0_r. left.
  - right. replace (start + S k) with (S start + k) by lia. by apply IH.
Qed.

Lemma enumerate1_lookup {A} (l : list A) k (x : A) :
  l !! k = Some x → (S k, x) ∈ enumerate1 l.
Proof. intros Hk. by apply (zip_seq_lookup l 1). Qed.

Lemma run_page_metrics field_definitions (pages : list (Page num)) st k :
  resolve_widgets field_definitions pages = Ok st →
  page_metrics st !! S k = page_size_of <$> pages !! k.
Proof.
  intros Hrun.
  destruct (resolve_widgets_ok _ _ _ Hrun) as (entries & _ & -> & _).
  destruct (pages !! k) as [page|] eqn:Hk; cbn.
  - apply record_metrics_elem; [apply enumerate1_NoDup|].
    by apply enumerate1_lookup.
  - rewrite record_metrics_other; [done|].
    rewrite enumerate1_indices, elem_of_seq.
    apply lookup_ge_None in Hk. lia.
Qed.

(** X12. After a run that did not fail, [page_metrics] has one entry per page,
    under the 1-based index of the page, also for the pages without
    annotations; it holds the size of the media box, unrounded. *)
Theorem page_metrics_of_run field_definitions (pages : list (Page num)) st :
  resolve_widgets field_definitions pages = Ok st →
  page_metrics st !! 0 = None ∧
  ∀ k, page_metrics st !! S k = page_size_of <$> pages !! k.
Proof.
  intros Hrun. split; [|intros k; by apply (run_page_metrics field_definitions)].
  destruct (resolve_widgets_ok _ _ _ Hrun) as (entries & _ & -> & _).
  rewrite record_metrics_other; [done|].
  rewrite enumerate1_indices, elem_of_seq. lia.
Qed.

(** ** The widgets of a run *)

Lemma widget_origin field_definitions (pages : list (Page num)) st field_name w :
  resolve_widgets field_definitions pages = Ok st →
  w ∈ default [] (widgets_by_field st !! field_name) →
  ∃ k page a rect rect_info,
    pages !! k = Some page ∧
    AnnotDict a ∈ Annots page ∧
    rect_of_annotation a = Ok rect ∧
    _resolve_rect rect = Ok rect_info ∧
    w = make_widget (S k) (sz_height (page_size_of page)) rect rect_info.
Proof.
  intros Hrun Hw.
  destruct (resolve_widgets_ok _ _ _ Hrun) as (entries & Hes & _ & Hws & _).
  rewrite Hws in Hw. apply widgets_named_elem in Hw as (e & He & _ & <-).
  destruct (entries_of_pages_elem _ _ _ _ Hes He) as (i & p & ref & Hip & Href & Hres).
  destruct ref as [a|]; [|done].
  apply resolve_annotation_some in Hres
    as (name_obj & rect & info & metrics & type_obj & _ & _ & Hrect & Hinfo
        & Hmetrics & _ & _ & Hwidget).
  rewrite lookup_singleton_eq in Hmetrics. injection Hmetrics as <-.
  apply enumerate1_elem in Hip as (k & -> & Hk).
  by exists k, p, a, rect, info.
Qed.

Lemma make_widget_consistent page_index page_height
    (rect : option (RectObject num)) rect_info :
  _resolve_rect rect = Ok rect_info →
  widget_consistent (make_widget page_index page_height rect rect_info).
Proof.
  intros Hinfo. unfold widget_consistent, make_widget. cbn.
  destruct (opt_truthy rect_truthy rect); cbn; [|done].
  split; [|done]. by eapply resolved_rect_info.
Qed.

(** X13. The geometry of every widget of a run hangs together: its position is
    the bottom-left corner of its bounding box and its size the width and
    height of it; a widget without a bounding box has no position, no size
    and no flutterConfig. *)
Theorem widgets_consistent field_definitions (pages : list (Page num)) st
    field_name w :
  resolve_widgets field_definitions pages = Ok st →
  w ∈ default [] (widgets_by_field st !! field_name) →
  widget_consistent w.
Proof.
  intros Hrun Hw.
  destruct (widget_origin _ _ _ _ _ Hrun Hw)
    as (k & page & a & rect & info & _ & _ & _ & Hinfo & ->).
  by apply make_widget_consistent.
Qed.

Lemma entries_of_annots_page field_definitions page_index pm annotations entries :
  entries_of_annots field_definitions page_index pm annotations = Ok entries →
  Forall (λ e, w_page (e_widget e) = Some page_index) entries.
Proof.
  intros Hes. apply Forall_forall. intros e He.
  destruct (entries_of_annots_elem _ _ _ _ _ _ Hes He) as (ref & _ & Hres).
  destruct ref as [a|]; [|done].
  apply resolve_annotation_some in Hres
    as (? & ? & ? & ? & ? & _ & _ & _ & _ & _ & _ & _ & ->).
  done.
Qed.

Lemma same_page_sorted page_index (ws : list (Widget num)) :
  Forall (λ w, w_page w = Some page_index) ws → StronglySorted page_le ws.
Proof.
  induction 1 as [|w ws Hw Hws IH]; constructor; [done|].
  eapply Forall_impl; [exact Hws|]. intros w' Hw'.
  exists page_index, page_index. by repeat split.
Qed.

Lemma entries_of_pages_sorted field_definitions (pages : list (Page num)) :
  ∀ start entries,
    entries_of_pages field_definitions (zip (seq start (length pages)) pages)
      = Ok entries →
    Forall (λ e, ∃ i, w_page (e_widget e) = Some i ∧
                      start ≤ i < start + length pages) entries ∧
    StronglySorted page_le (e_widget <$> entries).
Proof.
  induction pages as [|p ps IH]; intros start entries.
  - cbn. intros [= <-]. split; constructor.
  - cbn [length seq zip zip_with entries_of_pages fst snd].
    destruct (measure_page_cases p) as [-> | [msg ->]]; [|done]. rewrite bind_Ok.
    destruct (iterate_cases p) as [-> | [_ ->]]; [|done]. rewrite bind_Ok.
    destruct (entries_of_annots _ _ _ (Annots p)) as [es|] eqn:Hes; [|done].
    rewrite bind_Ok.
    destruct (entries_of_pages _ _) as [later|] eqn:Hlater; [|done].
    rewrite bind_Ok. intros [= <-].
    apply entries_of_annots_page in Hes.
    destruct (IH _ _ Hlater) as [Hbound Hsorted].
    split.
    + apply Forall_app. split.
      * eapply Forall_impl; [exact Hes|]. intros e He. exists start.
        split; [done|]. cbn. lia.
      * eapply Forall_impl; [exact Hbound|]. intros e (i & Hi & Hrange).
        exists i. split; [done|]. cbn. lia.
    + rewrite fmap_app. apply StronglySorted_app. split; [|split].
      * intros w1 w2 (e1 & -> & He1)%list_elem_of_fmap (e2 & -> & He2)%list_elem_of_fmap.
        rewrite Forall_forall in Hes, Hbound.
        destruct (Hbound _ He2) as (j & Hj & Hrange).
        exists start, j. split; [by apply Hes|]. split; [done|lia].
      * apply (same_page_sorted start). by apply Forall_fmap.
      * done.
Qed.

Lemma sorted_filter_fmap {A B} (R : relation B) (f : A → B) (P : A → Prop)
    `{∀ x, Decision (P x)} (l : list A) :
  StronglySorted R (f <$> l) → StronglySorted R (f <$> filter P l).
Proof.
  induction l as [|x l IH]; [done|]. intros Hsorted.
  rewrite fmap_cons in Hsorted.
  apply StronglySorted_cons in Hsorted as [Hall Hsorted].
  rewrite filter_cons. case_decide; [|by apply IH].
  rewrite fmap_cons. apply StronglySorted_cons. split; [|by apply IH].
  apply Forall_forall. intros z (y & -> & Hy)%list_elem_of_fmap.
  apply list_elem_of_filter in Hy as [_ Hy].
  rewrite Forall_forall in Hall. apply Hall. apply list_elem_of_fmap. by exists y.
Qed.

(** X14. The widgets of a field are kept in the order of the pages: every
    widget has the 1-based index of an existing page, and no widget is on
    an earlier page than one before it in the list. *)
Theorem widgets_ordered_by_page field_definitions (pages : list (Page num)) st
    field_name :
  resolve_widgets field_definitions pages = Ok st →
  let widgets := default [] (widgets_by_field st !! field_name) in
  Forall (λ w, ∃ k, w_page w = Some (S k) ∧ k < length pages) widgets ∧
  StronglySorted page_le widgets.
Proof.
  intros Hrun widgets. subst widgets.
  destruct (resolve_widgets_ok _ _ _ Hrun) as (entries & Hes & _ & Hws & _).
  rewrite Hws. unfold enumerate1 in Hes.
  destruct (entries_of_pages_sorted _ _ _ _ Hes) as [Hbound Hsorted].
  split.
  - apply Forall_forall. intros w (e & He & _ & <-)%widgets_named_elem.
    rewrite Forall_forall in Hbound. destruct (Hbound _ He) as (i & Hi & Hrange).
    destruct i as [|k]; [lia|]. exists k. split; [done|lia].
  - unfold widgets_named. by apply sorted_filter_fmap.
Qed.

End Invariants.

Section Records.
Context {num : Type} `{PyFloat num}.
Implicit Types (st : State num) (w : Widget num).
Implicit Types (reader : Reader num) (r : FieldRecord num) (src : Source num).

(** ** The returned records *)

Lemma record_of_any_source pdf_path src r :
  r ∈ (get_form_field_positions pdf_path src).2 →
  ∃ reader st,
    src = Opened reader ∧
    resolve_widgets (catalog_of reader) (pages reader) = Ok st ∧
    r = make_record st (name r).
Proof.
  intros Hr. destruct (results_empty_or_run pdf_path src) as [Hnil|Hrun].
  - rewrite Hnil in Hr. by apply elem_of_nil in Hr.
  - destruct Hrun as (reader & st & -> & _ & Hrun). exists reader, st.
    split; [done|]. split; [done|]. by apply (emitted_record pdf_path reader).
Qed.

Lemma format_number_rounded (value : option num) : is_rounded (_format_number value).
Proof. by exists value. Qed.

(** X15. Every number of every returned record, whatever the input, went
    through [_format_number]: page size, the four corners, width and
    height of the bounding box, position and size hold rounded numbers or
    nulls. *)
Theorem records_are_rounded pdf_path src r :
  r ∈ (get_form_field_positions pdf_path src).2 →
  from_option size_rounded True (page_size r) ∧
  from_option box_rounded True (bounding_box r) ∧
  from_option point_rounded True (position r) ∧
  from_option size_rounded True (size_ r).
Proof.
  intros Hr. destruct (record_of_any_source _ _ _ Hr) as (reader & st & _ & _ & ->).
  unfold make_record. cbn.
  repeat split;
    repeat match goal with
           | |- context [_round_size ?s] => destruct s; cbn
           | |- context [_round_point ?p] => destruct p; cbn
           | |- context [_round_box_dict ?b] => destruct b; cbn
           end;
    try done; repeat split; apply format_number_rounded.
Qed.

Lemma primary_widget_cases (widgets : list (Widget num)) :
  (widgets = [] ∧ primary_widget widgets = synthetic_widget) ∨
  (∃ first rest, widgets = first :: rest ∧ primary_widget widgets = first).
Proof. destruct widgets as [|first rest]; [by left|right; by eexists _, _]. Qed.

(** X16. A record with a page has the 1-based index of an existing page, and
    its page size is the size of the media box of that page, rounded. *)
Theorem record_page_size pdf_path reader r page_index :
  r ∈ (get_form_field_positions pdf_path (Opened reader)).2 →
  page r = Some page_index →
  ∃ k p,
    page_index = S k ∧ pages reader !! k = Some p ∧
    page_size r =
      Some {| sz_width := Some (round3 (fsub (mediabox_right p) (mediabox_left p)));
              sz_height := Some (round3 (fsub (mediabox_top p) (mediabox_bottom p))) |}.
Proof.
  intros Hr Hpage.
  destruct (record_of_any_source _ _ _ Hr) as (reader' & st & [= <-] & Hrun & Hrec).
  rewrite Hrec in Hpage |- *. unfold make_record in *. cbn in *.
  destruct (primary_widget_cases (default [] (widgets_by_field st !! name r)))
    as [[_ Hsyn]|(first & rest & Hws & Hfirst)].
  - by rewrite Hsyn in Hpage.
  - rewrite Hfirst in Hpage |- *.
    assert (first ∈ default [] (widgets_by_field st !! name r)) as Hin
      by (rewrite Hws; left).
    destruct (widget_origin _ _ _ _ _ Hrun Hin)
      as (k & p & a & rect & info & Hk & _ & _ & _ & ->).
    cbn in Hpage. injection Hpage as <-. exists k, p. do 2 (split; [done|]).
    cbn. by rewrite (run_page_metrics _ _ _ k Hrun), Hk.
Qed.

(** X17. In every returned record the position is the bottom-left corner of
    the bounding box and the size its width and height, as rounded there;
    the corners of the box share their coordinates.  A record without a
    bounding box has neither position nor size. *)
Theorem record_geometry_consistent pdf_path src r :
  r ∈ (get_form_field_positions pdf_path src).2 →
  match bounding_box r with
  | Some box =>
      position r = Some (bottom_left box) ∧
      size_ r = Some {| sz_width := ri_width box; sz_height := ri_height box |} ∧
      pt_x (bottom_left box) = pt_x (top_left box) ∧
      pt_x (bottom_right box) = pt_x (top_right box) ∧
      pt_y (top_right box) = pt_y (top_left box) ∧
      pt_y (bottom_right box) = pt_y (bottom_left box)
  | None => position r = None ∧ size_ r = None
  end.
Proof.
  intros Hr. destruct (record_of_any_source _ _ _ Hr) as (reader & st & _ & Hrun & ->).
  unfold make_record. cbn.
  destruct (primary_widget_cases (default [] (widgets_by_field st !! name r)))
    as [[_ ->]|(first & rest & Hws & ->)]; [done|].
  assert (first ∈ default [] (widgets_by_field st !! name r)) as Hin
    by (rewrite Hws; left).
  destruct (widget_origin _ _ _ _ _ Hrun Hin)
    as (k & p & a & rect & info' & _ & _ & _ & Hinfo & Hfirst).
  pose proof (make_widget_consistent (S k) (sz_height (page_size_of p)) _ _ Hinfo)
    as Hcons.
  rewrite <- Hfirst in Hcons. unfold widget_consistent in Hcons.
  destruct (w_boundingBox first) as [info|]; cbn.
  - destruct Hcons as ((Hx1 & Hx2 & Hy1 & Hy2 & _) & -> & ->). cbn.
    repeat split; congruence.
  - by destruct Hcons as (-> & -> & _).
Qed.

End Records.

Section Report.
Context {num : Type} `{PyFloat num}.
Implicit Types (st : State num) (reader : Reader num) (src : Source num).

(** ** The printed report *)

Lemma printed_names_app (lines1 lines2 : list (Line num)) :
  printed_names (lines1 ++ lines2) = printed_names lines1 ++ printed_names lines2.
Proof. apply omap_app. Qed.

Lemma printed_names_report_field st field_name :
  printed_names (report_field st field_name) = [field_name].
Proof.
  unfold report_field. rewrite !printed_names_app. cbn.
  destruct (w_boundingBox _); cbn;
    destruct (map_field_type _); cbn; try destruct (opt_truthy _ _); done.
Qed.

Lemma printed_names_reports st (names : list string) :
  printed_names (concat (map (report_field st) names)) = names.
Proof.
  induction names as [|n names IH]; [done|].
  cbn [map concat]. rewrite printed_names_app, printed_names_report_field, IH. done.
Qed.

(** X20. The report and the returned list agree: the field names printed are
    the names of the returned records, in the same order, whatever the
    input; a run that fails or finds no pages prints no field name. *)
Theorem report_lists_returned_fields pdf_path src :
  printed_names (get_form_field_positions pdf_path src).1 =
  name <$> (get_form_field_positions pdf_path src).2.
Proof.
  destruct src as [|msg|reader]; [done|done|].
  destruct (opened_document_outcomes_aux pdf_path reader) as [Hsimple|(st & ->)].
  - destruct Hsimple as [-> | [error ->]]; done.
  - unfold aggregate. cbn [fst snd].
    rewrite printed_names_app, printed_names_reports. cbn.
    by rewrite record_names.
Qed.

End Report.

Section TypesAndSkips.
Context {num : Type} `{PyFloat num}.
Implicit Types (st : State num) (reader : Reader num) (r : FieldRecord num).
Implicit Types (field_definitions : gmap string (PdfDict num)).

(** ** The type of a record *)

(** X18. The type shown in a record is the lookup of the type assigned by the
    last widget of its name in page-then-annotation order; a record whose
    name has no widget shows no type. *)
Theorem record_type_of_last_widget pdf_path reader r :
  r ∈ (get_form_field_positions pdf_path (Opened reader)).2 →
  ∃ entries,
    entries_of_pages (catalog_of reader) (enumerate1 (pages reader)) = Ok entries ∧
    field_type r = map_field_type (last (types_named (name r) entries) ≫= id) ∧
    (widgets_named (name r) entries = [] → field_type r = None).
Proof.
  intros Hr.
  destruct (record_of_any_source _ _ _ Hr) as (reader' & st & [= <-] & Hrun & ->).
  destruct (resolve_widgets_ok _ _ _ Hrun) as (entries & Hes & _ & _ & _ & Hty).
  exists entries. split; [done|]. cbn. rewrite Hty. split; [done|].
  unfold widgets_named, types_named. intros Hnil%fmap_nil_inv. by rewrite Hnil.
Qed.

(** ** Skipped annotations *)

Lemma entries_of_annots_without_skipped field_definitions page_index pm
    (annotations : list (AnnotationObject num)) :
  entries_of_annots field_definitions page_index pm
    (filter (λ ref, is_skipped ref = false) annotations) =
  entries_of_annots field_definitions page_index pm annotations.
Proof.
  induction annotations as [|ref refs IH]; [done|].
  rewrite filter_cons. case_decide as Hskip.
  - cbn. by rewrite IH.
  - rewrite IH. cbn [entries_of_annots].
    destruct ref as [a|]; [|done]. cbn in Hskip.
    destruct (name_obj_of a) as [[text|]|] eqn:Hname; try done.
    rewrite (proj2 (resolve_annotation_none _ _ _ _) Hname), bind_Ok. cbn.
    by destruct (entries_of_annots _ _ _ refs).
Qed.

Lemma entries_of_pages_without_skipped field_definitions
    (indexed_pages : list (nat * Page num)) :
  entries_of_pages field_definitions (prod_map id without_skipped <$> indexed_pages) =
  entries_of_pages field_definitions indexed_pages.
Proof.
  induction indexed_pages as [|[i p] l IH]; [done|].
  cbn [fmap list_fmap prod_map entries_of_pages fst snd].
  unfold measure_page. cbn [without_skipped get_Annots mediabox_failure].
  rewrite IH. destruct (mediabox_failure p); [done|]. rewrite !bind_Ok.
  destruct (get_Annots p) as [refs|]; [|done]. cbn [iterate]. rewrite !bind_Ok.
  cbn [page_size_of mediabox_left mediabox_bottom mediabox_right mediabox_top].
  by rewrite entries_of_annots_without_skipped.
Qed.

Lemma record_metrics_without_skipped (indexed_pages : list (nat * Page num)) :
  ∀ pm,
    record_metrics pm (prod_map id without_skipped <$> indexed_pages) =
    record_metrics pm indexed_pages.
Proof.
  induction indexed_pages as [|[i p] l IH]; intros pm; [done|].
  unfold record_metrics in *. cbn. apply IH.
Qed.

Lemma zip_seq_fmap {A B} (f : A → B) (l : list A) : ∀ start,
  zip (seq start (length (f <$> l))) (f <$> l) =
  prod_map id f <$> zip (seq start (length l)) l.
Proof.
  induction l as [|x l IH]; intros start; [done|]. cbn. f_equal. apply IH.
Qed.

Lemma resolve_widgets_without_skipped field_definitions (pages : list (Page num)) :
  resolve_widgets field_definitions (without_skipped <$> pages) =
  resolve_widgets field_definitions pages.
Proof.
  rewrite !resolve_widgets_entries. unfold enumerate1. rewrite zip_seq_fmap.
  by rewrite entries_of_pages_without_skipped, record_metrics_without_skipped.
Qed.

(** X8. The annotations that line 132 skips (no [/T] that is truthy, and no
    [/T] at all on the parent) have no influence whatever: with them taken
    out of every page, the same lines are printed and the same list is
    returned.  In particular nothing else of such an annotation is looked
    at, so a malformed rect on it cannot fail the run. *)
Theorem skipped_annotations_do_not_matter pdf_path reader :
  get_form_field_positions pdf_path
    (Opened {| get_fields := get_fields reader;
               pages := without_skipped <$> pages reader |}) =
  get_form_field_positions pdf_path (Opened reader).
Proof.
  destruct reader as [fields page_list].
  unfold get_form_field_positions, open_and_inspect, inspect.
  change (catalog_of {| get_fields := fields;
                        pages := without_skipped <$> page_list |})
    with (catalog_of {| get_fields := fields; pages := page_list |}).
  cbn [pages].
  rewrite resolve_widgets_without_skipped. by destruct page_list.
Qed.

End TypesAndSkips.

Section MainProperties.
Context {num : Type} `{PyFloat num}.
Variable with_suffix : string → string → option string.
Variable resolve : string → string.
Implicit Types (args : Args) (src : Source num) (try_write : string → WriteOutcome).

(** ** [main] *)

Lemma saved_not_printed_by_inspection (lines : list (Line num)) count path :
  PrintSaved count path ∉ (Inspecting <$> lines : list (MainLine num)).
Proof. by intros (line & [=] & _)%list_elem_of_fmap. Qed.

(** [main] on a command line that argparse accepts, path by path. *)
Lemma main_parsed args src try_write :
  main with_suffix resolve (Parsed args) src try_write =
  let out := get_form_field_positions (arg_pdf_path args) src in
  let lines := Inspecting <$> out.1 in
  match output_path_of with_suffix args with
  | None => {| printed := lines; file_effect := Untouched;
               escaped := Some ValueError |}
  | Some output_path =>
      match try_write output_path with
      | WriteDone =>
          {| printed := lines ++ [PrintSaved (length out.2) (resolve output_path)];
             file_effect := Written output_path out.2;
             escaped := None |}
      | OpenFailed error =>
          if is_Exception error
          then {| printed := lines ++ [PrintFailedWrite error];
                  file_effect := Untouched; escaped := None |}
          else {| printed := lines; file_effect := Untouched;
                  escaped := Some error |}
      | DumpFailed error =>
          if is_Exception error
          then {| printed := lines ++ [PrintFailedWrite error];
                  file_effect := Truncated output_path; escaped := None |}
          else {| printed := lines; file_effect := Truncated output_path;
                  escaped := Some error |}
      end
  end.
Proof.
  unfold main, main_body, parse_args, call_get_form_field_positions, write_json,
    try_except, print, set_file, raise, mbind, run_bind, mret, run_ret.
  cbn. destruct (output_path_of with_suffix args) as [output_path|]; [|done].
  destruct (try_write output_path) as [|error|error]; [done|..];
    by destruct (is_Exception error).
Qed.

(** X21. [main] writes what was returned and says so: when the file is
    written, it is written at the output path, it holds the returned
    list, and the last line printed is the summary with the length of that
    list; when it is not written in full, no summary line is printed. *)
Theorem main_reports_what_it_writes args src try_write :
  let outcome := main with_suffix resolve (Parsed args) src try_write in
  let fields := (get_form_field_positions (arg_pdf_path args) src).2 in
  match file_effect outcome with
  | Written path content =>
      output_path_of with_suffix args = Some path ∧
      content = fields ∧
      last (printed outcome) = Some (PrintSaved (length fields) (resolve path)) ∧
      escaped outcome = None
  | _ => ∀ count path, PrintSaved count path ∉ printed outcome
  end.
Proof.
  cbv zeta. rewrite main_parsed. cbv zeta.
  assert (∀ (lines : list (Line num)) error count p,
            PrintSaved count p ∉
              ((Inspecting <$> lines) ++ [PrintFailedWrite error]
               : list (MainLine num))) as Hfailed.
  { intros lines error count p [Hin|Hin]%elem_of_app.
    - by apply saved_not_printed_by_inspection in Hin.
    - by apply list_elem_of_singleton in Hin. }
  destruct (output_path_of with_suffix args) as [path|]; cbn.
  - destruct (try_write path) as [|error|error]; cbn.
    + by rewrite last_snoc.
    + destruct (is_Exception error); cbn; intros count p;
        [apply Hfailed|apply saved_not_printed_by_inspection].
    + destruct (is_Exception error); cbn; intros count p;
        [apply Hfailed|apply saved_not_printed_by_inspection].
  - intros count p. apply saved_not_printed_by_inspection.
Qed.

(** X22. A failure that [get_form_field_positions] absorbed does not stop
    [main]: when the PDF is not found or cannot be read and the output
    file can be written, the file is written with the empty list, and
    after the error line the summary reports 0 fields. *)
Theorem handled_failure_still_writes args src try_write error path :
  open_and_inspect src = Raise error →
  output_path_of with_suffix args = Some path →
  try_write path = WriteDone →
  let outcome := main with_suffix resolve (Parsed args) src try_write in
  file_effect outcome = Written path [] ∧
  escaped outcome = None ∧
  ∃ line, printed outcome = [Inspecting line; PrintSaved 0 (resolve path)] ∧
          (line = PrintNotFound (arg_pdf_path args) ∨ line = PrintUnexpected error).
Proof.
  intros Hraise Hpath Hwrite. cbv zeta. rewrite main_parsed. cbv zeta.
  unfold get_form_field_positions. rewrite Hraise, Hpath, Hwrite.
  destruct error; cbn; (split; [done|]); (split; [done|]); eexists; split; eauto.
Qed.

(** X23. What [main] does when something fails.  A command line that
    argparse rejects ends [main] with SystemExit before anything is
    inspected or written.  Without an output path, and with a PDF path
    that [with_suffix] rejects, ValueError leaves [main] after the
    inspection and no file is written.  A write that fails with an
    Exception is reported in the last line printed and [main] returns,
    with the file untouched when it could not be opened and cut short
    when [json.dump] failed; what is no Exception leaves [main]
    unreported. *)
Theorem main_failure_paths src try_write :
  (∀ status,
      main with_suffix resolve (Rejected status) src try_write =
      {| printed := [PrintUsage status]; file_effect := Untouched;
         escaped := Some (SystemExit status) |}) ∧
  (∀ args,
      output_path_of with_suffix args = None →
      let outcome := main with_suffix resolve (Parsed args) src try_write in
      printed outcome =
        Inspecting <$> (get_form_field_positions (arg_pdf_path args) src).1 ∧
      file_effect outcome = Untouched ∧
      escaped outcome = Some ValueError) ∧
  (∀ args path error,
      output_path_of with_suffix args = Some path →
      try_write path = OpenFailed error ∨ try_write path = DumpFailed error →
      let outcome := main with_suffix resolve (Parsed args) src try_write in
      printed outcome =
        (Inspecting <$> (get_form_field_positions (arg_pdf_path args) src).1) ++
        (if is_Exception error then [PrintFailedWrite error] else []) ∧
      file_effect outcome =
        match try_write path with
        | DumpFailed _ => Truncated path
        | _ => Untouched
        end ∧
      escaped outcome = if is_Exception error then None else Some error).
Proof.
  split; [done|]. split.
  - intros args Hpath. cbv zeta. rewrite main_parsed. cbv zeta.
    by rewrite Hpath.
  - intros args path error Hpath Hwrite. cbv zeta. rewrite main_parsed. cbv zeta.
    rewrite Hpath.
    destruct Hwrite as [-> | ->]; destruct (is_Exception error); cbn;
      by rewrite ?app_nil_r.
Qed.

End MainProperties.

(** * The rest of the program on concrete inputs *)

(** X1 at the name "/Signature1". *)
Lemma normalise_name_strips_one_slash_witness :
  _normalise_name (Some "/Signature1") = Some "Signature1".
Proof. apply (proj2 (normalise_name_strips_one_slash _ _)). by left. Defined.

(** Two slashes lose the first only, and "/A" collides with "A". *)
Example normalise_name_examples :
  _normalise_name (Some "//A") = Some "/A" ∧
  _normalise_name (Some "Plain") = Some "Plain" ∧
  _normalise_name (Some "/A") = _normalise_name (Some "A").
Proof. done. Qed.

(** X3 at a catalog with the raw names "/A" and "". *)
Lemma catalog_keys_witness :
  "A" ∈ dom (build_field_definitions [("/A", text_field); ("", text_field)]).
Proof.
  apply (proj2 (catalog_keys (num := float) _ _)). split; [done|].
  exists "/A". split; [left|reflexivity].
Defined.

(** X4 at the rect [100 700 300 720]. *)
Lemma resolve_rect_consistent_witness :
  let rect_info := {| top_left := {| pt_x := Some (pts 100); pt_y := Some (pts 720) |};
                      top_right := {| pt_x := Some (pts 300); pt_y := Some (pts 720) |};
                      bottom_left := {| pt_x := Some (pts 100); pt_y := Some (pts 700) |};
                      bottom_right := {| pt_x := Some (pts 300); pt_y := Some (pts 700) |};
                      ri_width := Some (pts 200); ri_height := Some (pts 20) |} in
  rect_info_consistent rect_info ∧
  (ri_width rect_info = None ↔
   pt_x (top_left rect_info) = None ∨ pt_x (top_right rect_info) = None) ∧
  (ri_height rect_info = None ↔
   pt_y (top_left rect_info) = None ∨ pt_y (bottom_left rect_info) = None).
Proof.
  apply (resolve_rect_consistent (Some (rect_of 100 700 300 720))).
  vm_compute. reflexivity.
Defined.


(** X6 at the list [1/3, None]. *)
Lemma round_box_shape_witness :
  let rounded_box := [Some (ratio 333 1000); None] in
  rounded_box ≠ [] ∧
  length rounded_box = length (default [] (Some [Some (ratio 1 3); None])) ∧
  ∀ i, rounded_box !! i =
       _format_number <$> default [] (Some [Some (ratio 1 3); None]) !! i.
Proof.
  apply (proj2 (round_box_shape (Some [Some (ratio 1 3); None]))).
  vm_compute. reflexivity.
Defined.

(** X7 at a named widget without a rect, on the first page. *)
Lemma widget_without_rect_witness :
  widgets_by_field
    (apply_entry on_first_page
       {| e_name := "A"; e_type := Some "Tx";
          e_widget := make_widget 1 (Some (pts 792)) None null_rect_info |})
    !! "A" =
  Some (default [] (widgets_by_field on_first_page !! "A") ++
        [{| w_page := Some 1; w_boundingBox := None; w_position := None;
            w_size := None; w_flutterConfig := None |}]).
Proof.
  apply (widget_without_rect ∅ 1 on_first_page _ rectless_widget (Some "A") "A" None).
  - vm_compute. reflexivity.
  - reflexivity.
  - reflexivity.
  - reflexivity.
  - reflexivity.
Defined.

(** An annotation without a name is skipped before its rect is looked
    at: a rect without a length on it does not fail the run. *)
Example unnamed_annotation_is_harmless :
  get_form_field_positions "form.pdf"
    (Opened {| get_fields := None;
               pages := [letter_page [AnnotDict unnamed_unsized;
                                      AnnotDict typed_widget]] |}) =
  get_form_field_positions "form.pdf" (Opened typed_once_pdf).
Proof. vm_compute. reflexivity. Qed.

(** X10 at the document with the text field "Name". *)
Lemma well_formed_document_succeeds_witness :
  ∃ st,
    resolve_widgets (catalog_of name_field_pdf) (pages name_field_pdf) = Ok st ∧
    (pages name_field_pdf ≠ [] →
     get_form_field_positions "form.pdf" (Opened name_field_pdf) =
       aggregate (catalog_of name_field_pdf) st).
Proof.
  apply (well_formed_document_succeeds "form.pdf" name_field_pdf).
  vm_compute. reflexivity.
Defined.

(** X11 at the document whose second annotation is not a dictionary. *)
Lemma malformed_annotation_empties_result_witness :
  ∃ error,
    get_form_field_positions "form.pdf" (Opened broken_pdf) =
      ([PrintUnexpected error], []).
Proof.
  apply (malformed_annotation_empties_result "form.pdf" broken_pdf
           (letter_page [plain_widget (Some "A") (Some (rect_of 10 20 110 40))
                           (Some "/Tx");
                         AnnotOther])
           AnnotOther).
  - left.
  - right. left.
  - by left.
Defined.

(** X12 at the radio group document, which has two pages. *)
Lemma page_metrics_of_run_witness :
  page_metrics (final_state radio_pdf) !! 0 = None ∧
  ∀ k, page_metrics (final_state radio_pdf) !! S k =
       page_size_of <$> pages radio_pdf !! k.
Proof.
  apply (page_metrics_of_run (catalog_of radio_pdf) (pages radio_pdf)).
  vm_compute. reflexivity.
Defined.

(** X13 at the widget of the text field "Name". *)
Lemma widgets_consistent_witness : widget_consistent name_field_widget.
Proof.
  apply (widgets_consistent (catalog_of name_field_pdf) (pages name_field_pdf)
           (final_state name_field_pdf) "Name").
  - vm_compute. reflexivity.
  - vm_compute. left.
Defined.

(** X14 at the radio group, whose widgets are on pages 1, 1 and 2. *)
Lemma widgets_ordered_by_page_witness :
  let widgets := default [] (widgets_by_field (final_state radio_pdf) !! "Choice") in
  Forall (λ w, ∃ k, w_page w = Some (S k) ∧ k < length (pages radio_pdf)) widgets ∧
  StronglySorted page_le widgets.
Proof.
  apply (widgets_ordered_by_page (catalog_of radio_pdf) (pages radio_pdf)).
  vm_compute. reflexivity.
Defined.

Example radio_widget_pages :
  w_page <$> default [] (widgets_by_field (final_state radio_pdf) !! "Choice") =
  [Some 1; Some 1; Some 2].
Proof. vm_compute. reflexivity. Qed.

(** X15 at the record of the text field "Name". *)
Lemma records_are_rounded_witness :
  let r := make_record (final_state name_field_pdf) "Name" in
  from_option size_rounded True (page_size r) ∧
  from_option box_rounded True (bounding_box r) ∧
  from_option point_rounded True (position r) ∧
  from_option size_rounded True (size_ r).
Proof.
  apply (records_are_rounded "form.pdf" (Opened name_field_pdf)).
  vm_compute. left.
Defined.

(** X16 at the record of the radio group, which is on page 1. *)
Lemma record_page_size_witness :
  let r := make_record (final_state radio_pdf) "Choice" in
  ∃ k p,
    1 = S k ∧ pages radio_pdf !! k = Some p ∧
    page_size r =
      Some {| sz_width := Some (round3 (fsub (mediabox_right p) (mediabox_left p)));
              sz_height := Some (round3 (fsub (mediabox_top p) (mediabox_bottom p))) |}.
Proof.
  apply (record_page_size "form.pdf" radio_pdf).
  - vm_compute. left.
  - reflexivity.
Defined.

(** X17 at the record of the text field "Name". *)
Lemma record_geometry_consistent_witness :
  let r := make_record (final_state name_field_pdf) "Name" in
  match bounding_box r with
  | Some box =>
      position r = Some (bottom_left box) ∧
      size_ r = Some {| sz_width := ri_width box; sz_height := ri_height box |} ∧
      pt_x (bottom_left box) = pt_x (top_left box) ∧
      pt_x (bottom_right box) = pt_x (top_right box) ∧
      pt_y (top_right box) = pt_y (top_left box) ∧
      pt_y (bottom_right box) = pt_y (bottom_left box)
  | None => position r = None ∧ size_ r = None
  end.
Proof.
  apply (record_geometry_consistent "form.pdf" (Opened name_field_pdf)).
  vm_compute. left.
Defined.

(** X18 at the record of "A" after a typed and an untyped widget. *)
Lemma record_type_of_last_widget_witness :
  let r := make_record (final_state typed_then_untyped_pdf) "A" in
  ∃ entries,
    entries_of_pages (catalog_of typed_then_untyped_pdf)
      (enumerate1 (pages typed_then_untyped_pdf)) = Ok entries ∧
    field_type r = map_field_type (last (types_named (name r) entries) ≫= id) ∧
    (widgets_named (name r) entries = [] → field_type r = None).
Proof.
  apply (record_type_of_last_widget "form.pdf" typed_then_untyped_pdf).
  vm_compute. left.
Defined.

(** X19 at an untyped widget of "A" with the type Tx in the catalog. *)
Lemma catalog_type_for_untyped_widgets_witness :
  field_type (make_record (final_state untyped_with_catalog_pdf) "A") =
  map_field_type (_normalise_name (Some "/Tx")).
Proof.
  apply (catalog_type_for_untyped_widgets "form.pdf" untyped_with_catalog_pdf
           (final_state untyped_with_catalog_pdf)).
  - vm_compute. reflexivity.
  - vm_compute. left.
  - apply elem_of_dom. vm_compute. by eexists.
  - vm_compute. reflexivity.
  - intros page a name_obj Hpage Ha _ _.
    apply list_elem_of_singleton in Hpage as ->.
    apply list_elem_of_singleton in Ha. by injection Ha as ->.
Defined.

(** X22 at [-o out.json] on a PDF that does not exist, with a file system
    that accepts the write. *)
Lemma handled_failure_still_writes_witness :
  let outcome := main (num := float) (λ _ _, None) (λ path, path)
                   (Parsed missing_pdf_args) NoSuchFile (λ _, WriteDone) in
  file_effect outcome = Written "out.json" [] ∧
  escaped outcome = None ∧
  ∃ line, printed outcome = [Inspecting line; PrintSaved 0 "out.json"] ∧
          (line = PrintNotFound (arg_pdf_path missing_pdf_args) ∨
           line = PrintUnexpected FileNotFoundError).
Proof.
  apply (handled_failure_still_writes (num := float) (λ _ _, None) (λ path, path)
           missing_pdf_args NoSuchFile (λ _, WriteDone) FileNotFoundError "out.json").
  - reflexivity.
  - reflexivity.
  - reflexivity.
Defined.

(** X23 at the same command line, with a file system that refuses to open
    the output file. *)
Lemma main_failure_paths_witness :
  let outcome := main (num := float) (λ _ _, None) (λ path, path)
                   (Parsed missing_pdf_args) NoSuchFile
                   (λ _, OpenFailed (OSError "Permission denied")) in
  printed outcome = [Inspecting (PrintNotFound "missing.pdf");
                     PrintFailedWrite (OSError "Permission denied")] ∧
  file_effect outcome = Untouched ∧
  escaped outcome = None.
Proof.
  apply (proj2 (proj2 (main_failure_paths (num := float) (λ _ _, None)
                         (λ path, path) NoSuchFile
                         (λ _, OpenFailed (OSError "Permission denied"))))
           missing_pdf_args "out.json" (OSError "Permission denied")).
  - reflexivity.
  - by left.
Defined.

(** Documents that fail in the loop: a rect that is a dictionary, an
    [/Annots] that is an indirect reference, a page without a media box. *)
Example malformed_documents :
  get_form_field_positions "form.pdf" (Opened dictionary_rect_pdf) =
    ([PrintUnexpected KeyError], []) ∧
  get_form_field_positions "form.pdf" (Opened indirect_annots_pdf) =
    ([PrintUnexpected TypeError], []) ∧
  get_form_field_positions "form.pdf" (Opened no_mediabox_pdf) =
    ([PrintUnexpected (ReadError "object of type 'NoneType' has no len()")], []).
Proof. vm_compute. done. Qed.

(** [main] on [-h], on a PDF path without a file name, and on Ctrl-C while
    the output file is written. *)
Example main_escapes :
  escaped (main (num := float) (λ _ _, None) (λ path, path) (Rejected 0)
             NoSuchFile (λ _, WriteDone)) = Some (SystemExit 0) ∧
  escaped (main (num := float) (λ _ _, None) (λ path, path)
             (Parsed {| arg_pdf_path := "."; arg_output := None |})
             NoSuchFile (λ _, WriteDone)) = Some ValueError ∧
  escaped (main (num := float) (λ _ _, None) (λ path, path)
             (Parsed missing_pdf_args) NoSuchFile
             (λ _, DumpFailed KeyboardInterrupt)) = Some KeyboardInterrupt.
Proof. done. Qed.

